(** * Rolling restart of Kubernetes workloads: a model of cmd/rollout/rollout.go

    The development embeds the package [rollout] of
    tim-codez/devops-skills-assessment: the run metadata, the three per-kind
    restart procedures and [Run].  The cluster API (client-go), the clock
    (package time) and the logger (logrus) are collaborators: the cluster and
    the clock are an interface whose calls thread an explicit world state, the
    logger is the list of entries written so far.  The repository holds a
    second copy of the package with exported names ([RolloutClient],
    [RolloutMetadata], [TotalRestarted]); its statements are the same.

    The first part holds the definitions: the Go primitives, the data, the
    procedures as they are written, then the vocabulary in which their
    behaviour is stated, and a scripted cluster.  The second part holds the
    lemmas and the properties. *)

From Stdlib Require Import ZArith Lia String Ascii List.
From stdpp Require Import base gmap strings list.

Local Open Scope Z_scope.

(** * Part I: definitions *)

(** ** Go primitives used by the package *)

Module GoInt.

(** Go's [int] on the 64-bit targets the repository builds for
    (linux/amd64): a two's complement 64-bit integer, arithmetic wraps. *)
Definition int_min : Z := - 2 ^ 63.
Definition int_max : Z := 2 ^ 63 - 1.

Definition wrap (z : Z) : Z := (z + 2 ^ 63) mod 2 ^ 64 - 2 ^ 63.

(** [a + b], [a += b] and [a++] on [int]. *)
Definition add (a b : Z) : Z := wrap (a + b).

Definition in_range (z : Z) : Prop := int_min <= z <= int_max.

End GoInt.

Module GoStrings.

Local Open Scope string_scope.

(** [strings.ToLower] on its ASCII path: every byte in ['A','Z'] is moved
    by ['a' - 'A'], every other byte is kept.  Names of Kubernetes objects
    are ASCII; for a string with bytes of 0x80 and above Go maps each rune
    through [unicode.ToLower], which this model does not follow (such
    bytes are kept). *)
Definition lowerByte (c : ascii) : ascii :=
  let n := N_of_ascii c in
  if ((65 <=? n) && (n <=? 90))%N then ascii_of_N (n + 32) else c.

Fixpoint ToLower (s : string) : string :=
  match s with
  | EmptyString => EmptyString
  | String c r => String (lowerByte c) (ToLower r)
  end.

Fixpoint HasPrefix (s prefix : string) : bool :=
  match prefix, s with
  | EmptyString, _ => true
  | String _ _, EmptyString => false
  | String p ps, String c cs => if Ascii.eqb c p then HasPrefix cs ps else false
  end.

(** [strings.Contains s substr], that is [strings.Index s substr >= 0]:
    [substr] occurs at some byte offset of [s]. *)
Fixpoint Contains (s substr : string) : bool :=
  HasPrefix s substr ||
  match s with
  | EmptyString => false
  | String _ cs => Contains cs substr
  end.

Definition isUpper (c : ascii) : bool :=
  let n := N_of_ascii c in ((65 <=? n) && (n <=? 90))%N.

Fixpoint hasUpper (s : string) : bool :=
  match s with
  | EmptyString => false
  | String c r => isUpper c || hasUpper r
  end.

End GoStrings.

Module GoErrors.

Local Open Scope string_scope.

(** Go's [error] values as the package meets them: an error of a
    collaborator with its text, or the [*fmt.wrapError] that [fmt.Errorf]
    builds for a format ending in [%w] (the formatted text and the wrapped
    error, which [errors.Unwrap] gives back). *)
Inductive error : Type :=
| errorString (s : string)
| wrapError (msg : string) (err : error).

Definition Error (e : error) : string :=
  match e with
  | errorString s => s
  | wrapError msg _ => msg
  end.

Definition Unwrap (e : error) : option error :=
  match e with
  | errorString _ => None
  | wrapError _ err => Some err
  end.

(** [fmt.Errorf(prefix + "%w", err)], [prefix] being the text the format
    produces before the verb. *)
Definition Errorf (prefix : string) (err : error) : error :=
  wrapError (prefix +:+ Error err) err.

(** A value returned together with an [error]: [(v, nil)] or [(_, err)]. *)
Inductive result (A : Type) : Type :=
| Ok (a : A)
| Err (err : error).

End GoErrors.

Export GoErrors.
Arguments Ok {A} a.
Arguments Err {A} err.

(** ** The collaborators: Kubernetes objects, client-go, time, logrus *)

(** The types the package does not look into: the remaining fields of the
    Kubernetes objects, the state of the cluster and of the clock behind
    the clientset, and the values of package time. *)
Class Types : Type := {
  Opaque : Type;
  World : Type;
  Time : Type;
  Duration : Type
}.

Inductive Kind : Type := Deployments | StatefulSets | DaemonSets.

#[global] Instance Kind_eq_dec : EqDecision Kind.
Proof. solve_decision. Defined.

(** logrus: a level, a message and the fields of the entry. *)
Inductive Level : Type := InfoLevel | ErrorLevel.

Inductive FieldValue : Type :=
| StringField (s : string)
| IntField (n : Z)
| ErrorField (err : error).

Record Entry : Type := mkEntry {
  EntryLevel : Level;
  Message : string;
  Data : gmap string FieldValue
}.

Section Rollout.

Context `{T : Types}.

Local Open Scope string_scope.
Local Open Scope list_scope.

(** [metav1.ObjectMeta], reduced to what the package touches. *)
Record ObjectMeta : Type := mkObjectMeta {
  Name : string;
  Annotations : option (gmap string string);
  metaRest : Opaque
}.

(** [corev1.PodTemplateSpec]. *)
Record PodTemplateSpec : Type := mkPodTemplateSpec {
  templateMeta : ObjectMeta;
  templateSpec : Opaque
}.

(** [appsv1.DeploymentSpec], [StatefulSetSpec] and [DaemonSetSpec]: the pod
    template, and the fields that differ between the kinds. *)
Record WorkloadSpec : Type := mkWorkloadSpec {
  Template : PodTemplateSpec;
  specRest : Opaque
}.

(** [appsv1.Deployment], [appsv1.StatefulSet] and [appsv1.DaemonSet]. *)
Record Workload : Type := mkWorkload {
  workloadMeta : ObjectMeta;
  Spec : WorkloadSpec;
  Status : Opaque
}.

(** [corev1.Namespace]. *)
Record Namespace : Type := mkNamespace {
  namespaceMeta : ObjectMeta;
  namespaceRest : Opaque
}.

(** [deployment.Name], [ns.Name]: the promoted field of the embedded
    [ObjectMeta]. *)
Definition workloadName (w : Workload) : string := Name (workloadMeta w).
Definition namespaceName (ns : Namespace) : string := Name (namespaceMeta ns).

(** client-go's typed clients and package time.  Every call takes the world
    as it is and gives the world after the call; the [context.Context] the
    package hands through is part of the world (a cancelled context makes
    the call fail like any other error). *)
Class Collaborators : Type := {
  Namespaces_List : World -> World * result (list Namespace);
  Workloads_List : Kind -> string -> World -> World * result (list Workload);
  Workloads_Update : Kind -> string -> Workload -> World -> World * option error;
  time_Now : World -> World * Time;
  Format_RFC3339 : Time -> string;
  Time_Sub : Time -> Time -> Duration;
  Duration_String : Duration -> string
}.

Context `{api : Collaborators}.

(** The calls made on the collaborators, with what they gave back. *)
Inductive Call : Type :=
| NamespacesListCall (r : result (list Namespace))
| ListCall (k : Kind) (namespace : string) (r : result (list Workload))
| UpdateCall (k : Kind) (namespace : string) (obj : Workload) (r : option error)
| NowCall (t : Time).

(** ** The package's data *)

Record rolloutMetadata : Type := mkMetadata {
  StartTime : Time;
  DeploymentsRestarted : Z;
  StatefulSetsRestarted : Z;
  DaemonSetsRestarted : Z;
  NamespacesProcessed : Z;
  Errors : list error
}.

Definition totalRestarted (rm : rolloutMetadata) : Z :=
  GoInt.add (GoInt.add (DeploymentsRestarted rm) (StatefulSetsRestarted rm))
            (DaemonSetsRestarted rm).

(** [rolloutClient], with the collaborators' state in place of the handles:
    [cs] is the world behind the clientset, [log] the entries written
    through the logger, [metadata] the pointer ([None] is nil).  The last
    two fields are ghost state: [history] records the collaborator calls in
    order, [snapshots] every value [*rc.metadata] has taken. *)
Record rolloutClient : Type := mkClient {
  podFilter : string;
  cs : World;
  log : list Entry;
  metadata : option rolloutMetadata;
  history : list Call;
  snapshots : list rolloutMetadata
}.

Definition NewRolloutClient (clientset : World) (podFilter : string)
    (logger : list Entry) : rolloutClient :=
  {| podFilter := podFilter; cs := clientset; log := logger;
     metadata := None; history := []; snapshots := [] |}.

(** ** Execution: state of the client, and panics

    A computation takes the client and either returns a value with the
    client after it, or panics ([None]: a nil pointer is dereferenced). *)
Definition M (A : Type) : Type := rolloutClient -> option (A * rolloutClient).

Definition ret {A} (a : A) : M A := fun rc => Some (a, rc).

Definition bind {A B} (m : M A) (k : A -> M B) : M B :=
  fun rc => match m rc with
            | Some (a, rc') => k a rc'
            | None => None
            end.

Notation "x <- m ;; k" := (bind m (fun x => k))
  (at level 100, m at next level, right associativity).
Notation "m ;; k" := (bind m (fun _ => k))
  (at level 100, right associativity).

Definition with_world (w : World) (c : Call) (rc : rolloutClient) : rolloutClient :=
  {| podFilter := podFilter rc; cs := w; log := log rc;
     metadata := metadata rc; history := history rc ++ [c];
     snapshots := snapshots rc |}.

Definition with_entry (e : Entry) (rc : rolloutClient) : rolloutClient :=
  {| podFilter := podFilter rc; cs := cs rc; log := log rc ++ [e];
     metadata := metadata rc; history := history rc;
     snapshots := snapshots rc |}.

Definition with_metadata (rm : rolloutMetadata) (rc : rolloutClient) : rolloutClient :=
  {| podFilter := podFilter rc; cs := cs rc; log := log rc;
     metadata := Some rm; history := history rc;
     snapshots := snapshots rc ++ [rm] |}.

(** [rc.cs.CoreV1().Namespaces().List(ctx, metav1.ListOptions{})] *)
Definition listNamespaces : M (result (list Namespace)) :=
  fun rc => let '(w, r) := Namespaces_List (cs rc) in
            Some (r, with_world w (NamespacesListCall r) rc).

(** [rc.cs.AppsV1().Deployments(namespace).List(ctx, metav1.ListOptions{})]
    and the same call of the two other typed clients. *)
Definition listWorkloads (k : Kind) (namespace : string) : M (result (list Workload)) :=
  fun rc => let '(w, r) := Workloads_List k namespace (cs rc) in
            Some (r, with_world w (ListCall k namespace r) rc).

(** [rc.cs.AppsV1().Deployments(namespace).Update(ctx, &obj, metav1.UpdateOptions{})];
    the object it returns is dropped by the package. *)
Definition updateWorkload (k : Kind) (namespace : string) (obj : Workload) : M (option error) :=
  fun rc => let '(w, r) := Workloads_Update k namespace obj (cs rc) in
            Some (r, with_world w (UpdateCall k namespace obj r) rc).

(** [time.Now()] *)
Definition timeNow : M Time :=
  fun rc => let '(w, t) := time_Now (cs rc) in
            Some (t, with_world w (NowCall t) rc).

(** [rc.log.WithFields(fields).Info(msg)] and [.Error(msg)] *)
Definition logWithFields (fields : gmap string FieldValue) (lvl : Level) (msg : string) : M unit :=
  fun rc => Some (tt, with_entry (mkEntry lvl msg fields) rc).

Definition getPodFilter : M string := fun rc => Some (podFilter rc, rc).

(** [rc.metadata = &rolloutMetadata{...}] *)
Definition setMetadata (rm : rolloutMetadata) : M unit :=
  fun rc => Some (tt, with_metadata rm rc).

(** A read through [rc.metadata]; it panics on nil. *)
Definition getMetadata : M rolloutMetadata :=
  fun rc => match metadata rc with
            | Some rm => Some (rm, rc)
            | None => None
            end.

(** A write through [rc.metadata]. *)
Definition modifyMetadata (f : rolloutMetadata -> rolloutMetadata) : M unit :=
  rm <- getMetadata ;; setMetadata (f rm).

(** [rm.duration()]: [time.Since(rm.StartTime)], that is
    [time.Now().Sub(rm.StartTime)]. *)
Definition duration (rm : rolloutMetadata) : M Duration :=
  now <- timeNow ;; ret (Time_Sub now (StartTime rm)).

(** ** The restart annotation *)

Definition restartedAt : string := "kubectl.kubernetes.io/restartedAt".

(** The two statements on [obj.Spec.Template.ObjectMeta.Annotations]: a nil
    map is replaced by [make(map[string]string)], then the key is assigned. *)
Definition setRestartedAt (timestamp : string) (obj : Workload) : Workload :=
  let meta := templateMeta (Template (Spec obj)) in
  let annotations :=
    match Annotations meta with
    | None => ∅
    | Some a => a
    end in
  {| workloadMeta := workloadMeta obj;
     Spec := {| Template :=
                  {| templateMeta :=
                       {| Name := Name meta;
                          Annotations := Some (<[restartedAt := timestamp]> annotations);
                          metaRest := metaRest meta |};
                     templateSpec := templateSpec (Template (Spec obj)) |};
                specRest := specRest (Spec obj) |};
     Status := Status obj |}.

(** The condition of the three loops:
    [strings.Contains(strings.ToLower(obj.Name), rc.podFilter)]. *)
Definition selected (podFilter : string) (obj : Workload) : bool :=
  GoStrings.Contains (GoStrings.ToLower (workloadName obj)) podFilter.

(** ** The three restart procedures *)

(** Lines 146-173: the loop of [restartDeployments] over what is left of
    [deployments.Items], [count] being the local counter so far.  A failed
    update logs and goes on ([continue]); a successful one counts. *)
Fixpoint restartDeployments_items (namespace : string) (items : list Workload)
    (count : Z) : M Z :=
  match items with
  | [] => ret count
  | deployment :: rest =>
      filter <- getPodFilter ;;
      if GoStrings.Contains (GoStrings.ToLower (workloadName deployment)) filter then
        logWithFields {[ "namespace" := StringField namespace;
                         "deployment" := StringField (workloadName deployment) ]}
                      InfoLevel "Restarting deployment" ;;
        now <- timeNow ;;
        let deployment := setRestartedAt (Format_RFC3339 now) deployment in
        err <- updateWorkload Deployments namespace deployment ;;
        match err with
        | Some err =>
            logWithFields {[ "namespace" := StringField namespace;
                             "deployment" := StringField (workloadName deployment);
                             "error" := ErrorField err ]}
                          ErrorLevel "Failed to restart deployment" ;;
            restartDeployments_items namespace rest count
        | None =>
            restartDeployments_items namespace rest (GoInt.add count 1)
        end
      else
        restartDeployments_items namespace rest count
  end.

(** Lines 140-174. *)
Definition restartDeployments (namespace : string) : M (Z * option error) :=
  r <- listWorkloads Deployments namespace ;;
  match r with
  | Err err => ret (0, Some err)
  | Ok deployments =>
      count <- restartDeployments_items namespace deployments 0 ;;
      ret (count, None)
  end.

(** Lines 182-209: the loop of [restartStatefulSets] over what is left of
    [statefulSets.Items], [count] being the local counter so far.  A failed
    update logs and goes on ([continue]); a successful one counts. *)
Fixpoint restartStatefulSets_items (namespace : string) (items : list Workload)
    (count : Z) : M Z :=
  match items with
  | [] => ret count
  | sts :: rest =>
      filter <- getPodFilter ;;
      if GoStrings.Contains (GoStrings.ToLower (workloadName sts)) filter then
        logWithFields {[ "namespace" := StringField namespace;
                         "statefulset" := StringField (workloadName sts) ]}
                      InfoLevel "Restarting statefulset" ;;
        now <- timeNow ;;
        let sts := setRestartedAt (Format_RFC3339 now) sts in
        err <- updateWorkload StatefulSets namespace sts ;;
        match err with
        | Some err =>
            logWithFields {[ "namespace" := StringField namespace;
                             "statefulset" := StringField (workloadName sts);
                             "error" := ErrorField err ]}
                          ErrorLevel "Failed to restart statefulset" ;;
            restartStatefulSets_items namespace rest count
        | None =>
            restartStatefulSets_items namespace rest (GoInt.add count 1)
        end
      else
        restartStatefulSets_items namespace rest count
  end.

(** Lines 176-210. *)
Definition restartStatefulSets (namespace : string) : M (Z * option error) :=
  r <- listWorkloads StatefulSets namespace ;;
  match r with
  | Err err => ret (0, Some err)
  | Ok statefulSets =>
      count <- restartStatefulSets_items namespace statefulSets 0 ;;
      ret (count, None)
  end.

(** Lines 218-245: the loop of [restartDaemonSets] over what is left of
    [daemonSets.Items], [count] being the local counter so far.  A failed
    update logs and goes on ([continue]); a successful one counts. *)
Fixpoint restartDaemonSets_items (namespace : string) (items : list Workload)
    (count : Z) : M Z :=
  match items with
  | [] => ret count
  | ds :: rest =>
      filter <- getPodFilter ;;
      if GoStrings.Contains (GoStrings.ToLower (workloadName ds)) filter then
        logWithFields {[ "namespace" := StringField namespace;
                         "daemonset" := StringField (workloadName ds) ]}
                      InfoLevel "Restarting daemonset" ;;
        now <- timeNow ;;
        let ds := setRestartedAt (Format_RFC3339 now) ds in
        err <- updateWorkload DaemonSets namespace ds ;;
        match err with
        | Some err =>
            logWithFields {[ "namespace" := StringField namespace;
                             "daemonset" := StringField (workloadName ds);
                             "error" := ErrorField err ]}
                          ErrorLevel "Failed to restart daemonset" ;;
            restartDaemonSets_items namespace rest count
        | None =>
            restartDaemonSets_items namespace rest (GoInt.add count 1)
        end
      else
        restartDaemonSets_items namespace rest count
  end.

(** Lines 212-246. *)
Definition restartDaemonSets (namespace : string) : M (Z * option error) :=
  r <- listWorkloads DaemonSets namespace ;;
  match r with
  | Err err => ret (0, Some err)
  | Ok daemonSets =>
      count <- restartDaemonSets_items namespace daemonSets 0 ;;
      ret (count, None)
  end.

(** The procedure of a kind: the three have the same text up to the typed
    client, the names of the variables and the words of the log entries. *)
Definition restart (k : Kind) : string -> M (Z * option error) :=
  match k with
  | Deployments => restartDeployments
  | StatefulSets => restartStatefulSets
  | DaemonSets => restartDaemonSets
  end.

(** ** Run *)

(** The writes of [Run] through [rc.metadata]:
    [Errors = append(Errors, err)], [+=] on the three counters and
    [NamespacesProcessed++]. *)
Definition add_error (err : error) (rm : rolloutMetadata) : rolloutMetadata :=
  {| StartTime := StartTime rm;
     DeploymentsRestarted := DeploymentsRestarted rm;
     StatefulSetsRestarted := StatefulSetsRestarted rm;
     DaemonSetsRestarted := DaemonSetsRestarted rm;
     NamespacesProcessed := NamespacesProcessed rm;
     Errors := Errors rm ++ [err] |}.

Definition add_deployments (n : Z) (rm : rolloutMetadata) : rolloutMetadata :=
  {| StartTime := StartTime rm;
     DeploymentsRestarted := GoInt.add (DeploymentsRestarted rm) n;
     StatefulSetsRestarted := StatefulSetsRestarted rm;
     DaemonSetsRestarted := DaemonSetsRestarted rm;
     NamespacesProcessed := NamespacesProcessed rm;
     Errors := Errors rm |}.

Definition add_statefulSets (n : Z) (rm : rolloutMetadata) : rolloutMetadata :=
  {| StartTime := StartTime rm;
     DeploymentsRestarted := DeploymentsRestarted rm;
     StatefulSetsRestarted := GoInt.add (StatefulSetsRestarted rm) n;
     DaemonSetsRestarted := DaemonSetsRestarted rm;
     NamespacesProcessed := NamespacesProcessed rm;
     Errors := Errors rm |}.

Definition add_daemonSets (n : Z) (rm : rolloutMetadata) : rolloutMetadata :=
  {| StartTime := StartTime rm;
     DeploymentsRestarted := DeploymentsRestarted rm;
     StatefulSetsRestarted := StatefulSetsRestarted rm;
     DaemonSetsRestarted := GoInt.add (DaemonSetsRestarted rm) n;
     NamespacesProcessed := NamespacesProcessed rm;
     Errors := Errors rm |}.

Definition incr_namespaces (rm : rolloutMetadata) : rolloutMetadata :=
  {| StartTime := StartTime rm;
     DeploymentsRestarted := DeploymentsRestarted rm;
     StatefulSetsRestarted := StatefulSetsRestarted rm;
     DaemonSetsRestarted := DaemonSetsRestarted rm;
     NamespacesProcessed := GoInt.add (NamespacesProcessed rm) 1;
     Errors := Errors rm |}.

(** Lines 57-66: the deployments of one namespace. *)
Definition Run_deployments (ns : Namespace) : M unit :=
  r <- restartDeployments (namespaceName ns) ;;
  let '(deploymentCount, err) := r in
  match err with
  | Some err =>
      modifyMetadata
        (add_error (Errorf ("deployments in " +:+ namespaceName ns +:+ ": ") err)) ;;
      logWithFields {[ "namespace" := StringField (namespaceName ns);
                       "error" := ErrorField err ]}
                    ErrorLevel "Failed to restart deployments"
  | None => modifyMetadata (add_deployments deploymentCount)
  end.

(** Lines 69-78: the statefulsets of one namespace. *)
Definition Run_statefulSets (ns : Namespace) : M unit :=
  r <- restartStatefulSets (namespaceName ns) ;;
  let '(statefulSetCount, err) := r in
  match err with
  | Some err =>
      modifyMetadata
        (add_error (Errorf ("statefulsets in " +:+ namespaceName ns +:+ ": ") err)) ;;
      logWithFields {[ "namespace" := StringField (namespaceName ns);
                       "error" := ErrorField err ]}
                    ErrorLevel "Failed to restart statefulsets"
  | None => modifyMetadata (add_statefulSets statefulSetCount)
  end.

(** Lines 81-90: the daemonsets of one namespace. *)
Definition Run_daemonSets (ns : Namespace) : M unit :=
  r <- restartDaemonSets (namespaceName ns) ;;
  let '(daemonSetCount, err) := r in
  match err with
  | Some err =>
      modifyMetadata
        (add_error (Errorf ("daemonsets in " +:+ namespaceName ns +:+ ": ") err)) ;;
      logWithFields {[ "namespace" := StringField (namespaceName ns);
                       "error" := ErrorField err ]}
                    ErrorLevel "Failed to restart daemonsets"
  | None => modifyMetadata (add_daemonSets daemonSetCount)
  end.

(** The body of the loop over [namespaces.Items] (lines 53-90). *)
Definition Run_namespace (ns : Namespace) : M unit :=
  modifyMetadata incr_namespaces ;;
  logWithFields {[ "namespace" := StringField (namespaceName ns) ]}
                InfoLevel "Checking namespace" ;;
  Run_deployments ns ;;
  Run_statefulSets ns ;;
  Run_daemonSets ns.

(** [for _, ns := range namespaces.Items]. *)
Fixpoint Run_namespaces (items : list Namespace) : M unit :=
  match items with
  | [] => ret tt
  | ns :: rest => Run_namespace ns ;; Run_namespaces rest
  end.

(** The summary entry (lines 94-102). *)
Definition Run_summary : M unit :=
  rm <- getMetadata ;;
  d <- duration rm ;;
  logWithFields
    {[ "total_restarted" := IntField (totalRestarted rm);
       "deployments" := IntField (DeploymentsRestarted rm);
       "statefulsets" := IntField (StatefulSetsRestarted rm);
       "daemonsets" := IntField (DaemonSetsRestarted rm);
       "namespaces_checked" := IntField (NamespacesProcessed rm);
       "errors_count" := IntField (Z.of_nat (length (Errors rm)));
       "duration" := StringField (Duration_String d) ]}
    InfoLevel "Rollout completed".

(** Lines 40-104. *)
Definition Run : M (option error) :=
  start <- timeNow ;;
  setMetadata {| StartTime := start;
                 DeploymentsRestarted := 0;
                 StatefulSetsRestarted := 0;
                 DaemonSetsRestarted := 0;
                 NamespacesProcessed := 0;
                 Errors := [] |} ;;
  r <- listNamespaces ;;
  match r with
  | Err err => ret (Some (Errorf "failed to list namespaces: " err))
  | Ok namespaces =>
      Run_namespaces namespaces ;;
      Run_summary ;;
      ret None
  end.

(** ** Vocabulary for the behaviour of the procedures

    The relations below describe what a computation does by the collaborator
    calls it makes, the log entries it writes and the values it gives the
    metadata; the second part proves that the procedures follow them. *)

(** *** One pass over a listing

    [loop_run k namespace filter items calls entries n]: the loop of the
    procedure of kind [k] over [items] makes the collaborator calls [calls],
    writes the log entries [entries] and counts [n] restarts. *)

Definition kindLabel (k : Kind) : string :=
  match k with
  | Deployments => "deployment"
  | StatefulSets => "statefulset"
  | DaemonSets => "daemonset"
  end.

Definition restartingEntry (k : Kind) (namespace : string) (obj : Workload) : Entry :=
  mkEntry InfoLevel ("Restarting " +:+ kindLabel k)
          {[ "namespace" := StringField namespace;
             kindLabel k := StringField (workloadName obj) ]}.

Definition failedEntry (k : Kind) (namespace : string) (obj : Workload) (err : error) : Entry :=
  mkEntry ErrorLevel ("Failed to restart " +:+ kindLabel k)
          {[ "namespace" := StringField namespace;
             kindLabel k := StringField (workloadName obj);
             "error" := ErrorField err ]}.

Inductive loop_run (k : Kind) (namespace filter : string) :
    list Workload -> list Call -> list Entry -> nat -> Prop :=
| loop_done : loop_run k namespace filter [] [] [] 0
| loop_skip obj rest calls entries n :
    selected filter obj = false ->
    loop_run k namespace filter rest calls entries n ->
    loop_run k namespace filter (obj :: rest) calls entries n
| loop_restarted obj rest calls entries n t :
    selected filter obj = true ->
    loop_run k namespace filter rest calls entries n ->
    loop_run k namespace filter (obj :: rest)
      (NowCall t :: UpdateCall k namespace (setRestartedAt (Format_RFC3339 t) obj) None :: calls)
      (restartingEntry k namespace obj :: entries)
      (S n)
| loop_failed obj rest calls entries n t err :
    selected filter obj = true ->
    loop_run k namespace filter rest calls entries n ->
    loop_run k namespace filter (obj :: rest)
      (NowCall t :: UpdateCall k namespace (setRestartedAt (Format_RFC3339 t) obj) (Some err) :: calls)
      (restartingEntry k namespace obj :: failedEntry k namespace obj err :: entries)
      n.

(** The loop of a kind. *)
Definition restart_items (k : Kind) : string -> list Workload -> Z -> M Z :=
  match k with
  | Deployments => restartDeployments_items
  | StatefulSets => restartStatefulSets_items
  | DaemonSets => restartDaemonSets_items
  end.

(** The client after a computation that moved the world to [w], wrote
    [entries], made [calls] and gave [*rc.metadata] the values [snaps] in
    turn. *)
Definition after (rc : rolloutClient) (w : World) (entries : list Entry)
    (calls : list Call) (snaps : list rolloutMetadata) : rolloutClient :=
  {| podFilter := podFilter rc; cs := w; log := log rc ++ entries;
     metadata := from_option Some (metadata rc) (last snaps);
     history := history rc ++ calls;
     snapshots := snapshots rc ++ snaps |}.

(** *** One kind of one namespace in [Run] *)

Definition kindPlural (k : Kind) : string :=
  match k with
  | Deployments => "deployments"
  | StatefulSets => "statefulsets"
  | DaemonSets => "daemonsets"
  end.

Definition Run_kind (k : Kind) : Namespace -> M unit :=
  match k with
  | Deployments => Run_deployments
  | StatefulSets => Run_statefulSets
  | DaemonSets => Run_daemonSets
  end.

(** The counter of a kind, and [+=] on it. *)
Definition restarted (k : Kind) (rm : rolloutMetadata) : Z :=
  match k with
  | Deployments => DeploymentsRestarted rm
  | StatefulSets => StatefulSetsRestarted rm
  | DaemonSets => DaemonSetsRestarted rm
  end.

Definition add_restarted (k : Kind) : Z -> rolloutMetadata -> rolloutMetadata :=
  match k with
  | Deployments => add_deployments
  | StatefulSets => add_statefulSets
  | DaemonSets => add_daemonSets
  end.

(** The error [Run] records when the listing of kind [k] fails in [ns]. *)
Definition listingError (k : Kind) (namespace : string) (err : error) : error :=
  Errorf (kindPlural k +:+ " in " +:+ namespace +:+ ": ") err.

Definition listingFailedEntry (k : Kind) (ns : Namespace) (err : error) : Entry :=
  mkEntry ErrorLevel ("Failed to restart " +:+ kindPlural k)
          {[ "namespace" := StringField (namespaceName ns);
             "error" := ErrorField err ]}.

Inductive kind_run (k : Kind) (ns : Namespace) (filter : string) (rm : rolloutMetadata) :
    list Call -> list Entry -> rolloutMetadata -> Prop :=
| kind_failed err :
    kind_run k ns filter rm
      [ListCall k (namespaceName ns) (Err err)]
      [listingFailedEntry k ns err]
      (add_error (listingError k (namespaceName ns) err) rm)
| kind_listed items calls entries n :
    loop_run k (namespaceName ns) filter items calls entries n ->
    kind_run k ns filter rm
      (ListCall k (namespaceName ns) (Ok items) :: calls)
      entries
      (add_restarted k (GoInt.wrap (Z.of_nat n)) rm).

(** *** The loop over the namespaces *)

Definition checkingEntry (ns : Namespace) : Entry :=
  mkEntry InfoLevel "Checking namespace"
          {[ "namespace" := StringField (namespaceName ns) ]}.

(** [namespaces_run filter items rm calls entries snaps]: from metadata
    [rm], the loop over [items] makes [calls], writes [entries] and takes
    the metadata through the values [snaps]. *)
Inductive namespaces_run (filter : string) :
    list Namespace -> rolloutMetadata -> list Call -> list Entry ->
    list rolloutMetadata -> Prop :=
| namespaces_done rm : namespaces_run filter [] rm [] [] []
| namespaces_step ns rest rm c1 e1 rm1 c2 e2 rm2 c3 e3 rm3 calls entries snaps :
    kind_run Deployments ns filter (incr_namespaces rm) c1 e1 rm1 ->
    kind_run StatefulSets ns filter rm1 c2 e2 rm2 ->
    kind_run DaemonSets ns filter rm2 c3 e3 rm3 ->
    namespaces_run filter rest rm3 calls entries snaps ->
    namespaces_run filter (ns :: rest) rm
      (c1 ++ c2 ++ c3 ++ calls)
      (checkingEntry ns :: e1 ++ e2 ++ e3 ++ entries)
      (incr_namespaces rm :: rm1 :: rm2 :: rm3 :: snaps).

(** *** Run *)

(** The metadata [Run] starts from. *)
Definition freshMetadata (start : Time) : rolloutMetadata :=
  {| StartTime := start;
     DeploymentsRestarted := 0;
     StatefulSetsRestarted := 0;
     DaemonSetsRestarted := 0;
     NamespacesProcessed := 0;
     Errors := [] |}.

Definition summaryEntry (rm : rolloutMetadata) (d : Duration) : Entry :=
  mkEntry InfoLevel "Rollout completed"
    {[ "total_restarted" := IntField (totalRestarted rm);
       "deployments" := IntField (DeploymentsRestarted rm);
       "statefulsets" := IntField (StatefulSetsRestarted rm);
       "daemonsets" := IntField (DaemonSetsRestarted rm);
       "namespaces_checked" := IntField (NamespacesProcessed rm);
       "errors_count" := IntField (Z.of_nat (length (Errors rm)));
       "duration" := StringField (Duration_String d) ]}.

(** The namespaces of a listing result; none when it failed. *)
Definition listed (r : result (list Namespace)) : list Namespace :=
  match r with
  | Ok items => items
  | Err _ => []
  end.

(** *** Reading a history *)

(** The objects submitted by [Update] calls, in order. *)
Fixpoint submitted (calls : list Call) : list Workload :=
  match calls with
  | [] => []
  | UpdateCall _ _ obj _ :: rest => obj :: submitted rest
  | _ :: rest => submitted rest
  end.

(** The number of [Update] calls of kind [k] that succeeded. *)
Fixpoint successes (k : Kind) (calls : list Call) : nat :=
  match calls with
  | [] => 0
  | UpdateCall k' _ _ None :: rest =>
      if decide (k' = k) then S (successes k rest) else successes k rest
  | _ :: rest => successes k rest
  end.

(** The workload listings asked for, in order. *)
Fixpoint listings (calls : list Call) : list (Kind * string) :=
  match calls with
  | [] => []
  | ListCall k namespace _ :: rest => (k, namespace) :: listings rest
  | _ :: rest => listings rest
  end.

(** The workload listings that failed, in order. *)
Fixpoint failedListings (calls : list Call) : list (Kind * string * error) :=
  match calls with
  | [] => []
  | ListCall k namespace (Err err) :: rest => (k, namespace, err) :: failedListings rest
  | _ :: rest => failedListings rest
  end.

Definition recorded (f : Kind * string * error) : error :=
  listingError f.1.1 f.1.2 f.2.

(** The counters say how many updates of each kind the calls [pre] saw
    succeed. *)
Definition Counted (pre : list Call) (rm : rolloutMetadata) : Prop :=
  forall k, restarted k rm = GoInt.wrap (Z.of_nat (successes k pre)).

(** The listings [Run] asks for in one namespace. *)
Definition schedule (ns : Namespace) : list (Kind * string) :=
  [(Deployments, namespaceName ns); (StatefulSets, namespaceName ns);
   (DaemonSets, namespaceName ns)].

(** The metadata after the loop: the last value it was given. *)
Definition final (rm : rolloutMetadata) (snaps : list rolloutMetadata) : rolloutMetadata :=
  default rm (last snaps).

(** *** Errors against namespaces visited *)

(** [err] is the record of a failed listing in one of the namespaces
    [visited]. *)
Definition Tagged (visited : list Namespace) (err : error) : Prop :=
  exists ns k cause, In ns visited /\ err = listingError k (namespaceName ns) cause.

(** The metadata when the namespaces [visited] have been counted and the
    last of them still has [pending] kinds to go. *)
Definition Visited (visited : list Namespace) (pending : nat) (rm : rolloutMetadata) : Prop :=
  NamespacesProcessed rm = GoInt.wrap (Z.of_nat (length visited)) /\
  (length (Errors rm) + pending <= 3 * length visited)%nat /\
  Forall (Tagged visited) (Errors rm).

(** *** The mutation *)

(** A nil map reads as the empty map. *)
Definition annotationsOf (obj : Workload) : gmap string string :=
  default ∅ (Annotations (templateMeta (Template (Spec obj)))).

(** [obj] is [item] with the pod template's annotation [restartedAt] set to
    [timestamp], and nothing else changed. *)
Definition onlyRestartedAt (timestamp : string) (item obj : Workload) : Prop :=
  workloadMeta obj = workloadMeta item /\
  Status obj = Status item /\
  specRest (Spec obj) = specRest (Spec item) /\
  templateSpec (Template (Spec obj)) = templateSpec (Template (Spec item)) /\
  Name (templateMeta (Template (Spec obj))) = Name (templateMeta (Template (Spec item))) /\
  metaRest (templateMeta (Template (Spec obj)))
  = metaRest (templateMeta (Template (Spec item))) /\
  Annotations (templateMeta (Template (Spec obj)))
  = Some (<[restartedAt := timestamp]> (annotationsOf item)).

End Rollout.

(** * A scripted cluster

    A stand-in for the collaborators in the manner of client-go's fake
    clientset: the listings are fixed, the updates of some names are
    refused, the clock ticks once per reading.  The properties above are
    instantiated on it. *)
Module Demo.

Local Open Scope string_scope.
Local Open Scope list_scope.

Record cluster : Type := mkCluster {
  clock : N;
  namespaceListing : result (list string);
  workloadListings :
    list (Kind * string * result (list (string * option (gmap string string))));
  refused : list string
}.

#[global] Instance types : Types :=
  {| Opaque := unit; World := cluster; Time := N; Duration := N |}.

Definition workload (d : string * option (gmap string string)) : Workload :=
  {| workloadMeta := {| Name := d.1; Annotations := None; metaRest := tt |};
     Spec := {| Template :=
                  {| templateMeta := {| Name := ""; Annotations := d.2; metaRest := tt |};
                     templateSpec := tt |};
                specRest := tt |};
     Status := tt |}.

Definition namespace (name : string) : Namespace :=
  {| namespaceMeta := {| Name := name; Annotations := None; metaRest := tt |};
     namespaceRest := tt |}.

Definition mapResult {A B} (f : A -> B) (r : result A) : result B :=
  match r with
  | Ok a => Ok (f a)
  | Err err => Err err
  end.

Fixpoint findListing (k : Kind) (name : string)
    (l : list (Kind * string * result (list (string * option (gmap string string)))))
    : result (list (string * option (gmap string string))) :=
  match l with
  | [] => Ok []
  | (k', name', r) :: rest =>
      if decide (k' = k) then
        if String.eqb name' name then r else findListing k name rest
      else findListing k name rest
  end.

Definition digit (n : N) : string := String (ascii_of_N (48 + n mod 10)) "".

Definition tick (c : cluster) : cluster :=
  {| clock := clock c + 1; namespaceListing := namespaceListing c;
     workloadListings := workloadListings c; refused := refused c |}.

#[global] Instance collaborators : Collaborators :=
  {| Namespaces_List := fun c => (c, mapResult (map namespace) (namespaceListing c));
     Workloads_List := fun k name c =>
       (c, mapResult (map workload) (findListing k name (workloadListings c)));
     Workloads_Update := fun k name obj c =>
       (c, if existsb (String.eqb (workloadName obj)) (refused c)
           then Some (errorString "the object has been modified")
           else None);
     time_Now := fun c => (tick c, clock c);
     Format_RFC3339 := fun t =>
       "2025-06-01T12:00:" +:+ digit (t / 10) +:+ digit t +:+ "Z";
     Time_Sub := fun a b => (a - b)%N;
     Duration_String := fun d => digit (d / 10) +:+ digit d +:+ "s" |}.

(** Two namespaces; in [db] three deployments, two statefulsets of which
    one cannot be updated, and a daemonset listing that fails. *)
Definition world : cluster :=
  {| clock := 0;
     namespaceListing := Ok ["default"; "db"];
     workloadListings :=
       [ (Deployments, "db",
          Ok [("db-primary", None);
              ("cache", None);
              ("DB-replica", Some {[ "team" := "storage" ]})]);
         (StatefulSets, "db", Ok [("db-store", None); ("db-backup", None)]);
         (DaemonSets, "db", Err (errorString "forbidden")) ];
     refused := ["db-store"] |}.

(** The same cluster when the namespaces cannot be listed. *)
Definition unreachable : cluster :=
  {| clock := 0;
     namespaceListing := Err (errorString "connection refused");
     workloadListings := workloadListings world;
     refused := refused world |}.

Definition client (filter : string) : rolloutClient :=
  NewRolloutClient world filter [].

Definition dbDeployments : list Workload :=
  map workload [("db-primary", None); ("cache", None);
                ("DB-replica", Some {[ "team" := "storage" ]})].

Definition dbStatefulSets : list Workload :=
  map workload [("db-store", None); ("db-backup", None)].

(** The client of the cluster that cannot list its namespaces. *)
Definition stranded : rolloutClient :=
  NewRolloutClient (T := types) unreachable "db" [].


Definition refusal : error := errorString "the object has been modified".

(** The client after [Run]. *)
Definition finished (rc : rolloutClient) : rolloutClient :=
  match Run rc with
  | Some (_, rc') => rc'
  | None => rc
  end.

End Demo.

(** * More of the package, and its caller *)

Section Caller.

Context {T : Types} {api : Collaborators}.

Local Open Scope string_scope.
Local Open Scope list_scope.

Notation "x <- m ;; k" := (bind m (fun x => k))
  (at level 100, m at next level, right associativity).
Notation "m ;; k" := (bind m (fun _ => k))
  (at level 100, right associativity).

(** ** One procedure for the three kinds

    The three restart procedures differ in the typed client they list and
    update through and in one word of their log entries.  [restartWith] is
    their common text over those: [list] and [update] are the two calls of
    a typed client, [label] is the word. *)
Fixpoint restartWith_items (update : string -> Workload -> M (option error))
    (label : string) (namespace : string) (items : list Workload) (count : Z) : M Z :=
  match items with
  | [] => ret count
  | obj :: rest =>
      filter <- getPodFilter ;;
      if GoStrings.Contains (GoStrings.ToLower (workloadName obj)) filter then
        logWithFields {[ "namespace" := StringField namespace;
                         label := StringField (workloadName obj) ]}
                      InfoLevel ("Restarting " +:+ label) ;;
        now <- timeNow ;;
        let obj := setRestartedAt (Format_RFC3339 now) obj in
        err <- update namespace obj ;;
        match err with
        | Some err =>
            logWithFields {[ "namespace" := StringField namespace;
                             label := StringField (workloadName obj);
                             "error" := ErrorField err ]}
                          ErrorLevel ("Failed to restart " +:+ label) ;;
            restartWith_items update label namespace rest count
        | None =>
            restartWith_items update label namespace rest (GoInt.add count 1)
        end
      else
        restartWith_items update label namespace rest count
  end.

Definition restartWith (list : string -> M (result (list Workload)))
    (update : string -> Workload -> M (option error)) (label : string)
    (namespace : string) : M (Z * option error) :=
  r <- list namespace ;;
  match r with
  | Err err => ret (0, Some err)
  | Ok items =>
      count <- restartWith_items update label namespace items 0 ;;
      ret (count, None)
  end.

(** ** Reading a log and a history, continued *)

(** The number of [Update] calls that failed. *)
Fixpoint failures (calls : list Call) : nat :=
  match calls with
  | [] => 0
  | UpdateCall _ _ _ (Some _) :: rest => S (failures rest)
  | _ :: rest => failures rest
  end.

Definition sameLevel (a b : Level) : bool :=
  match a, b with
  | InfoLevel, InfoLevel => true
  | ErrorLevel, ErrorLevel => true
  | _, _ => false
  end.

(** The entries of a level, and the entries of a message. *)
Definition atLevel (lvl : Level) (entries : list Entry) : list Entry :=
  List.filter (fun e => sameLevel (EntryLevel e) lvl) entries.

Definition withMessage (msg : string) (entries : list Entry) : list Entry :=
  List.filter (fun e => String.eqb (Message e) msg) entries.

(** The entries [Run] writes when a listing of workloads fails: their
    message is "Failed to restart " and the plural of a kind. *)
Definition isListingFailure (e : Entry) : bool :=
  String.eqb (Message e) "Failed to restart deployments"
  || String.eqb (Message e) "Failed to restart statefulsets"
  || String.eqb (Message e) "Failed to restart daemonsets".

Definition listingFailures (entries : list Entry) : list Entry :=
  List.filter isListingFailure entries.

(** The entry for the failed listing [f]: [listingFailedEntry] by the name
    of the namespace. *)
Definition loggedFailure (f : Kind * string * error) : Entry :=
  mkEntry ErrorLevel ("Failed to restart " +:+ kindPlural f.1.1)
          {[ "namespace" := StringField f.1.2;
             "error" := ErrorField f.2 ]}.

(** ** Where an update comes from *)

(** An [Update] call of [calls] follows the successful listing of its own
    kind in the namespace [ns] of [items], no other listing in between, and
    submits a selected element of that listing. *)
Definition fromListing (filter : string) (items : list Namespace) (calls : list Call)
    (k : Kind) (namespace : string) (obj : Workload) (r : option error) : Prop :=
  exists ns listing item t before between rest,
    In ns items /\ namespace = namespaceName ns
    /\ calls = before ++ ListCall k namespace (Ok listing)
                 :: between ++ NowCall t :: UpdateCall k namespace obj r :: rest
    /\ listings between = []
    /\ In item listing /\ selected filter item = true
    /\ obj = setRestartedAt (Format_RFC3339 t) item.

(** ** The metadata only grows *)

(** [rm'] is [rm] after more of the run: the error list is extended at its
    end, no counter is smaller. *)
Definition grows (rm rm' : rolloutMetadata) : Prop :=
  StartTime rm' = StartTime rm /\
  Errors rm `prefix_of` Errors rm' /\
  NamespacesProcessed rm <= NamespacesProcessed rm' /\
  forall k, restarted k rm <= restarted k rm'.

(** Every element of [l] is related to the next, from [x] on. *)
Inductive Chain {A : Type} (R : A -> A -> Prop) : A -> list A -> Prop :=
| Chain_nil x : Chain R x []
| Chain_cons x y l : R x y -> Chain R y l -> Chain R x (y :: l).

End Caller.

(** ** The command: package main *)

(** What [main] and [buildConfig] ask of the host: the home directory
    ([homedir.HomeDir]), the environment ([os.Getenv]), [filepath.Join],
    and the two constructors of client-go, [clientcmd.BuildConfigFromFlags]
    and [kubernetes.NewForConfig], whose clientset is the world [Run] works
    on. *)
Class Host {T : Types} : Type := {
  Config : Type;
  homedir_HomeDir : string;
  os_Getenv : string -> string;
  filepath_Join : list string -> string;
  clientcmd_BuildConfigFromFlags : string -> string -> result Config;
  kubernetes_NewForConfig : Config -> result World
}.

Section Command.

Context {T : Types} {api : Collaborators} {host : Host}.

Local Open Scope string_scope.
Local Open Scope list_scope.

(** [const podFilter = "database"] of package main. *)
Definition main_podFilter : string := "database".

(** [buildConfig] (lines 45-63 of the command). *)
Definition buildConfig : result Config :=
  let kubeconfig := "" in
  let kubeconfig :=
    let home := homedir_HomeDir in
    if negb (String.eqb home "") then filepath_Join [home; ".kube"; "config"]
    else kubeconfig in
  let kubeconfig :=
    let envKubeConfig := os_Getenv "KUBECONFIG" in
    if negb (String.eqb envKubeConfig "") then envKubeConfig
    else kubeconfig in
  match clientcmd_BuildConfigFromFlags "" kubeconfig with
  | Err err => Err err
  | Ok config => Ok config
  end.

(** How the command ends: [Fatal] writes its entry (the message and the
    field [error]) and exits with status 1; falling off [main] exits with
    status 0.  [rc] is the client as [Run] left it, when [Run] was
    called. *)
Inductive Outcome : Type :=
| Fatal (msg : string) (err : error) (rc : option rolloutClient)
| Returned (rc : rolloutClient).

Definition exitStatus (o : Outcome) : Z :=
  match o with
  | Fatal _ _ _ => 1
  | Returned _ => 0
  end.

(** [main] (lines 20-43 of the command); [None] is a panic. *)
Definition main : option Outcome :=
  match buildConfig with
  | Err err => Some (Fatal "Failed to build kubernetes config" err None)
  | Ok config =>
      match kubernetes_NewForConfig config with
      | Err err => Some (Fatal "failed to create clientset" err None)
      | Ok clientset =>
          let rc := NewRolloutClient clientset main_podFilter [] in
          match Run rc with
          | None => None
          | Some (Some err, rc') => Some (Fatal "Rollout failed" err (Some rc'))
          | Some (None, rc') => Some (Returned rc')
          end
      end
  end.

End Command.

(** ** More of the scripted cluster *)

Module Scenario.

Import Demo.

Local Open Scope string_scope.
Local Open Scope list_scope.

(** A cluster without any namespace. *)
Definition deserted : cluster :=
  {| clock := 0;
     namespaceListing := Ok [];
     workloadListings := [];
     refused := [] |}.

Definition visitor : rolloutClient :=
  NewRolloutClient (T := types) deserted "db" [].

(** A host with a home directory and KUBECONFIG set; a configuration is the
    path it was read from, and every clientset reaches [world]. *)
Definition laptop : Host :=
  {| Config := string;
     homedir_HomeDir := "/home/dev";
     os_Getenv := fun name =>
       if String.eqb name "KUBECONFIG" then "/etc/kube/admin.conf" else "";
     filepath_Join := fun elems => String.concat "/" elems;
     clientcmd_BuildConfigFromFlags := fun _ path =>
       if String.eqb path "" then Err (errorString "no configuration")
       else Ok path;
     kubernetes_NewForConfig := fun _ => Ok world |}.

End Scenario.

(** * Part II: lemmas and properties *)

(** ** Go primitives *)

Module GoIntFacts.

Import GoInt.

Lemma wrap_range z : in_range (wrap z).
Proof.
  unfold in_range, wrap, int_min, int_max.
  pose proof (Z.mod_pos_bound (z + 2 ^ 63) (2 ^ 64) ltac:(lia)). lia.
Qed.

Lemma wrap_id z : in_range z -> wrap z = z.
Proof.
  unfold in_range, wrap, int_min, int_max. intros Hz.
  rewrite Z.mod_small by lia. lia.
Qed.

Lemma wrap_add_l a b : wrap (wrap a + b) = wrap (a + b).
Proof.
  unfold wrap.
  replace ((a + 2 ^ 63) mod 2 ^ 64 - 2 ^ 63 + b + 2 ^ 63)
    with ((a + 2 ^ 63) mod 2 ^ 64 + b) by lia.
  rewrite Zplus_mod_idemp_l. do 2 f_equal. lia.
Qed.

Lemma wrap_add_r a b : wrap (a + wrap b) = wrap (a + b).
Proof. rewrite (Z.add_comm a (wrap b)), wrap_add_l. f_equal. lia. Qed.

End GoIntFacts.

Module GoStringsFacts.

Import GoStrings.

Local Open Scope string_scope.

Lemma HasPrefix_spec s p : HasPrefix s p = true <-> exists post, s = p +:+ post.
Proof.
  revert s. induction p as [|a p IH]; intros s.
  - split; [intros _; now exists s | intros _; now destruct s].
  - destruct s as [|c s]; cbn.
    + split; [discriminate | intros [post H]; discriminate].
    + destruct (Ascii.eqb_spec c a) as [->|Hne].
      * rewrite IH. split; intros [post H]; exists post.
        -- now rewrite H.
        -- now inversion H.
      * split; [discriminate | intros [post H]; inversion H; congruence].
Qed.

Lemma Contains_spec s sub :
  Contains s sub = true <-> exists pre post, s = pre +:+ sub +:+ post.
Proof.
  induction s as [|c s IH]; cbn [Contains].
  - rewrite orb_false_r, HasPrefix_spec. split.
    + intros [post H]. now exists "", post.
    + intros [pre [post H]]. destruct pre; [now exists post | discriminate].
  - rewrite orb_true_iff, HasPrefix_spec, IH. split.
    + intros [[post H] | [pre [post H]]].
      * now exists "", post.
      * exists (String c pre), post. cbn. now rewrite H.
    + intros [pre [post H]]. destruct pre as [|a pre].
      * left. now exists post.
      * right. cbn in H. inversion H. now exists pre, post.
Qed.

Lemma HasPrefix_empty s : HasPrefix s "" = true.
Proof. now destruct s. Qed.

Lemma Contains_empty s : Contains s "" = true.
Proof. destruct s; cbn [Contains]; now rewrite HasPrefix_empty. Qed.

Lemma lowerByte_not_upper c : isUpper (lowerByte c) = false.
Proof.
  unfold isUpper, lowerByte.
  destruct c as [[] [] [] [] [] [] [] []]; vm_compute; reflexivity.
Qed.


Lemma ToLower_no_upper s : hasUpper (ToLower s) = false.
Proof. induction s; simpl; [reflexivity | now rewrite lowerByte_not_upper]. Qed.


Lemma hasUpper_app a b : hasUpper (a +:+ b) = hasUpper a || hasUpper b.
Proof.
  induction a as [|c a IH]; [reflexivity |].
  change (String c a +:+ b) with (String c (a +:+ b)).
  cbn [hasUpper]. now rewrite IH, orb_assoc.
Qed.

(** A string without upper-case letters contains no string with one. *)
Lemma Contains_upper s sub :
  hasUpper s = false -> hasUpper sub = true -> Contains s sub = false.
Proof.
  intros Hs Hsub. destruct (Contains s sub) eqn:E; [|reflexivity].
  apply Contains_spec in E as [pre [post ->]].
  rewrite !hasUpper_app, Hsub, orb_true_r in Hs. simpl in Hs. discriminate.
Qed.

End GoStringsFacts.

Section RolloutFacts.

Context `{T : Types} `{api : Collaborators}.

Local Open Scope string_scope.
Local Open Scope list_scope.

Notation "x <- m ;; k" := (bind m (fun x => k))
  (at level 100, m at next level, right associativity).
Notation "m ;; k" := (bind m (fun _ => k))
  (at level 100, right associativity).

(** ** The procedures follow the relations *)

Lemma after_after rc w entries calls snaps w' entries' calls' snaps' :
  after (after rc w entries calls snaps) w' entries' calls' snaps'
  = after rc w' (entries ++ entries') (calls ++ calls') (snaps ++ snaps').
Proof.
  unfold after; cbn. rewrite !app_assoc. f_equal.
  rewrite last_app. now destruct (last snaps').
Qed.

Lemma after_nil rc : after rc (cs rc) [] [] [] = rc.
Proof. destruct rc; unfold after; cbn. now rewrite !app_nil_r. Qed.

Lemma with_metadata_after rm rc : with_metadata rm rc = after rc (cs rc) [] [] [rm].
Proof. unfold after, with_metadata; cbn. now rewrite !app_nil_r. Qed.

Lemma with_entry_after e rc : with_entry e rc = after rc (cs rc) [e] [] [].
Proof. unfold after, with_entry; cbn. now rewrite !app_nil_r. Qed.

Lemma with_world_after w c rc : with_world w c rc = after rc w [] [c] [].
Proof. unfold after, with_world; cbn. now rewrite !app_nil_r. Qed.

(** *** One iteration *)

Ltac unfold_iteration :=
  cbn [restart_items restartDeployments_items restartStatefulSets_items
       restartDaemonSets_items];
  unfold bind, getPodFilter, logWithFields, timeNow, updateWorkload, selected in *;
  cbn [podFilter cs log metadata history snapshots with_entry with_world].

Lemma restart_items_skip k namespace obj rest count rc :
  selected (podFilter rc) obj = false ->
  restart_items k namespace (obj :: rest) count rc
  = restart_items k namespace rest count rc.
Proof. intros Hsel. destruct k; unfold_iteration; now rewrite Hsel. Qed.

Lemma restart_items_restarted k namespace obj rest count rc w1 t w2 :
  selected (podFilter rc) obj = true ->
  time_Now (cs rc) = (w1, t) ->
  Workloads_Update k namespace (setRestartedAt (Format_RFC3339 t) obj) w1 = (w2, None) ->
  restart_items k namespace (obj :: rest) count rc
  = restart_items k namespace rest (GoInt.add count 1)
      (after rc w2 [restartingEntry k namespace obj]
         [NowCall t; UpdateCall k namespace (setRestartedAt (Format_RFC3339 t) obj) None] []).
Proof.
  intros Hsel Hnow Hupd.
  destruct k; unfold_iteration; rewrite Hsel, Hnow; cbn; rewrite Hupd; cbn;
    f_equal; unfold after, with_world, with_entry; cbn; now rewrite <- !app_assoc, app_nil_r.
Qed.

Lemma restart_items_failed k namespace obj rest count rc w1 t w2 err :
  selected (podFilter rc) obj = true ->
  time_Now (cs rc) = (w1, t) ->
  Workloads_Update k namespace (setRestartedAt (Format_RFC3339 t) obj) w1 = (w2, Some err) ->
  restart_items k namespace (obj :: rest) count rc
  = restart_items k namespace rest count
      (after rc w2 [restartingEntry k namespace obj; failedEntry k namespace obj err]
         [NowCall t; UpdateCall k namespace (setRestartedAt (Format_RFC3339 t) obj) (Some err)] []).
Proof.
  intros Hsel Hnow Hupd.
  destruct k; unfold_iteration; rewrite Hsel, Hnow; cbn; rewrite Hupd; cbn;
    f_equal; unfold after, with_world, with_entry; cbn; now rewrite <- !app_assoc, app_nil_r.
Qed.

Lemma restart_items_run k namespace items count rc :
  GoInt.in_range count ->
  exists w calls entries n,
    restart_items k namespace items count rc
    = Some (GoInt.wrap (count + Z.of_nat n), after rc w entries calls [])
    /\ loop_run k namespace (podFilter rc) items calls entries n.
Proof.
  revert count rc. induction items as [|obj rest IH]; intros count rc Hc.
  - exists (cs rc), [], [], 0%nat. split; [|constructor].
    rewrite after_nil, Z.add_0_r, GoIntFacts.wrap_id by assumption. now destruct k.
  - destruct (selected (podFilter rc) obj) eqn:Hsel.
    + destruct (time_Now (cs rc)) as [w1 t] eqn:Hnow.
      destruct (Workloads_Update k namespace (setRestartedAt (Format_RFC3339 t) obj) w1)
        as [w2 [err|]] eqn:Hupd.
      * rewrite (restart_items_failed _ _ _ _ _ _ _ _ _ _ Hsel Hnow Hupd).
        destruct (IH count (after rc w2 [restartingEntry k namespace obj; failedEntry k namespace obj err]
         [NowCall t; UpdateCall k namespace (setRestartedAt (Format_RFC3339 t) obj) (Some err)] []) Hc)
          as (w & calls & entries & n & -> & Hrun).
        rewrite after_after. do 4 eexists. split; [reflexivity|].
        now apply loop_failed.
      * rewrite (restart_items_restarted _ _ _ _ _ _ _ _ _ Hsel Hnow Hupd).
        destruct (IH (GoInt.add count 1) (after rc w2 [restartingEntry k namespace obj]
         [NowCall t; UpdateCall k namespace (setRestartedAt (Format_RFC3339 t) obj) None] [])
                     (GoIntFacts.wrap_range _))
          as (w & calls & entries & n & -> & Hrun).
        rewrite after_after. exists w. do 2 eexists. exists (S n). split.
        -- unfold GoInt.add. rewrite GoIntFacts.wrap_add_l.
           replace (count + 1 + Z.of_nat n) with (count + Z.of_nat (S n)) by lia.
           reflexivity.
        -- now apply loop_restarted.
    + rewrite (restart_items_skip _ _ _ _ _ _ Hsel).
      destruct (IH count rc Hc) as (w & calls & entries & n & -> & Hrun).
      do 4 eexists. split; [reflexivity|]. now apply loop_skip.
Qed.

(** *** One procedure *)

Lemma restart_failed k namespace rc w err :
  Workloads_List k namespace (cs rc) = (w, Err err) ->
  restart k namespace rc
  = Some ((0, Some err), after rc w [] [ListCall k namespace (Err err)] []).
Proof.
  intros Hlist.
  destruct k; cbn; unfold restartDeployments, restartStatefulSets, restartDaemonSets,
    bind, listWorkloads; rewrite Hlist; cbn; now rewrite with_world_after.
Qed.

Lemma restart_listed k namespace rc w items :
  Workloads_List k namespace (cs rc) = (w, Ok items) ->
  exists w' calls entries n,
    restart k namespace rc
    = Some ((GoInt.wrap (Z.of_nat n), None),
            after rc w' entries (ListCall k namespace (Ok items) :: calls) [])
    /\ loop_run k namespace (podFilter rc) items calls entries n.
Proof.
  intros Hlist.
  pose proof (restart_items_run k namespace items 0
                (after rc w [] [ListCall k namespace (Ok items)] []))
    as (w' & calls & entries & n & Hrun & Hloop).
  { unfold GoInt.in_range, GoInt.int_min, GoInt.int_max. lia. }
  exists w', calls, entries, n. split; [|exact Hloop].
  rewrite after_after in Hrun. cbn [app] in Hrun.
  destruct k; cbn in *; unfold restartDeployments, restartStatefulSets, restartDaemonSets,
    bind, listWorkloads; rewrite Hlist; cbn; rewrite with_world_after, Hrun; reflexivity.
Qed.

(** *** One kind of one namespace in [Run] *)

Ltac unfold_Run_kind :=
  cbn [Run_kind]; unfold Run_deployments, Run_statefulSets, Run_daemonSets;
  unfold bind at 1.

Lemma modifyMetadata_after f rc rm :
  metadata rc = Some rm ->
  modifyMetadata f rc = Some (tt, after rc (cs rc) [] [] [f rm]).
Proof.
  intros Hm. unfold modifyMetadata, bind, getMetadata, setMetadata.
  now rewrite Hm, with_metadata_after.
Qed.

Lemma metadata_after rc w entries calls :
  metadata (after rc w entries calls []) = metadata rc.
Proof. reflexivity. Qed.

Lemma Run_kind_failed k ns rc rm w err :
  metadata rc = Some rm ->
  Workloads_List k (namespaceName ns) (cs rc) = (w, Err err) ->
  Run_kind k ns rc
  = Some (tt, after rc w [listingFailedEntry k ns err]
                [ListCall k (namespaceName ns) (Err err)]
                [add_error (listingError k (namespaceName ns) err) rm]).
Proof.
  intros Hm Hlist. pose proof (restart_failed _ _ _ _ _ Hlist) as Hr.
  destruct k; unfold_Run_kind; cbn [restart] in Hr; rewrite Hr; cbn beta iota;
    unfold bind, logWithFields;
    (erewrite modifyMetadata_after by (rewrite metadata_after; exact Hm));
    rewrite with_entry_after, !after_after; reflexivity.
Qed.

Lemma Run_kind_listed k ns rc rm w items :
  metadata rc = Some rm ->
  Workloads_List k (namespaceName ns) (cs rc) = (w, Ok items) ->
  exists w' calls entries n,
    Run_kind k ns rc
    = Some (tt, after rc w' entries (ListCall k (namespaceName ns) (Ok items) :: calls)
                  [add_restarted k (GoInt.wrap (Z.of_nat n)) rm])
    /\ loop_run k (namespaceName ns) (podFilter rc) items calls entries n.
Proof.
  intros Hm Hlist.
  destruct (restart_listed _ _ _ _ _ Hlist) as (w' & calls & entries & n & Hr & Hloop).
  exists w', calls, entries, n. split; [|exact Hloop].
  destruct k; unfold_Run_kind; cbn [restart] in Hr; rewrite Hr; cbn beta iota;
    (erewrite modifyMetadata_after by (rewrite metadata_after; exact Hm));
    rewrite !after_after, !app_nil_r; reflexivity.
Qed.

Lemma Run_kind_run k ns rc rm :
  metadata rc = Some rm ->
  exists w calls entries rm',
    Run_kind k ns rc = Some (tt, after rc w entries calls [rm'])
    /\ kind_run k ns (podFilter rc) rm calls entries rm'.
Proof.
  intros Hm.
  destruct (Workloads_List k (namespaceName ns) (cs rc)) as [w [items|err]] eqn:Hlist.
  - destruct (Run_kind_listed _ _ _ _ _ _ Hm Hlist) as (w' & calls & entries & n & Hr & Hloop).
    do 4 eexists. split; [exact Hr|]. now apply kind_listed.
  - do 4 eexists. split; [exact (Run_kind_failed _ _ _ _ _ _ Hm Hlist)|]. apply kind_failed.
Qed.

(** *** The loop over the namespaces *)

Lemma metadata_after_snap rc w entries calls rm :
  metadata (after rc w entries calls [rm]) = Some rm.
Proof. reflexivity. Qed.

Lemma podFilter_after rc w entries calls snaps :
  podFilter (after rc w entries calls snaps) = podFilter rc.
Proof. reflexivity. Qed.

Lemma Run_namespace_run ns rc rm :
  metadata rc = Some rm ->
  exists w c1 e1 rm1 c2 e2 rm2 c3 e3 rm3,
    Run_namespace ns rc
    = Some (tt, after rc w (checkingEntry ns :: e1 ++ e2 ++ e3) (c1 ++ c2 ++ c3)
                  [incr_namespaces rm; rm1; rm2; rm3])
    /\ kind_run Deployments ns (podFilter rc) (incr_namespaces rm) c1 e1 rm1
    /\ kind_run StatefulSets ns (podFilter rc) rm1 c2 e2 rm2
    /\ kind_run DaemonSets ns (podFilter rc) rm2 c3 e3 rm3.
Proof.
  intros Hm. unfold Run_namespace.
  unfold bind at 1. rewrite (modifyMetadata_after _ _ _ Hm).
  unfold bind at 1. unfold logWithFields at 1. rewrite with_entry_after, after_after.
  fold (checkingEntry ns). cbn [app].
  set (rc0 := after rc _ _ _ _).
  destruct (Run_kind_run Deployments ns rc0 (incr_namespaces rm) eq_refl)
    as (w1 & c1 & e1 & rm1 & H1 & K1).
  unfold bind at 1. cbn [Run_kind] in H1. rewrite H1.
  set (rc1 := after rc0 _ _ _ _).
  destruct (Run_kind_run StatefulSets ns rc1 rm1 eq_refl)
    as (w2 & c2 & e2 & rm2 & H2 & K2).
  unfold bind at 1. cbn [Run_kind] in H2. rewrite H2.
  set (rc2 := after rc1 _ _ _ _).
  destruct (Run_kind_run DaemonSets ns rc2 rm2 eq_refl)
    as (w3 & c3 & e3 & rm3 & H3 & K3).
  cbn [Run_kind] in H3. rewrite H3.
  exists w3, c1, e1, rm1, c2, e2, rm2, c3, e3, rm3.
  split; [|now repeat split].
  subst rc2 rc1 rc0. rewrite !after_after. cbn [app].
  rewrite <- ?app_assoc. reflexivity.
Qed.

Lemma Run_namespaces_run items rc rm :
  metadata rc = Some rm ->
  exists w calls entries snaps,
    Run_namespaces items rc = Some (tt, after rc w entries calls snaps)
    /\ namespaces_run (podFilter rc) items rm calls entries snaps.
Proof.
  revert rc rm. induction items as [|ns rest IH]; intros rc rm Hm.
  - exists (cs rc), [], [], []. split; [|constructor].
    cbn. unfold ret. now rewrite after_nil.
  - destruct (Run_namespace_run ns rc rm Hm)
      as (w & c1 & e1 & rm1 & c2 & e2 & rm2 & c3 & e3 & rm3 & Hns & K1 & K2 & K3).
    cbn [Run_namespaces]. unfold bind at 1. rewrite Hns.
    set (rc' := after rc _ _ _ _).
    destruct (IH rc' rm3 eq_refl) as (w' & calls & entries & snaps & Hrest & Krest).
    rewrite Hrest. subst rc'. rewrite after_after.
    do 4 eexists. split.
    + cbn [app]. rewrite <- ?app_assoc. reflexivity.
    + now apply namespaces_step.
Qed.

(** *** Run *)

Lemma Run_start rc w0 start :
  time_Now (cs rc) = (w0, start) ->
  Run rc
  = (r <- listNamespaces ;;
     match r with
     | Err err => ret (Some (Errorf "failed to list namespaces: " err))
     | Ok namespaces =>
         Run_namespaces namespaces ;;
         Run_summary ;;
         ret None
     end) (after rc w0 [] [NowCall start] [freshMetadata start]).
Proof.
  intros Hnow. unfold Run. unfold bind at 1. unfold timeNow. rewrite Hnow.
  unfold bind at 1. unfold setMetadata.
  now rewrite with_world_after, with_metadata_after, after_after.
Qed.

Lemma Run_listing_failed rc w0 start w1 err :
  time_Now (cs rc) = (w0, start) ->
  Namespaces_List w0 = (w1, Err err) ->
  Run rc
  = Some (Some (Errorf "failed to list namespaces: " err),
          after rc w1 [] [NowCall start; NamespacesListCall (Err err)]
            [freshMetadata start]).
Proof.
  intros Hnow Hlist. rewrite (Run_start _ _ _ Hnow).
  unfold bind, listNamespaces. cbn [cs after]. rewrite Hlist.
  unfold ret. now rewrite with_world_after, after_after.
Qed.

Lemma Run_listed rc w0 start w1 items :
  time_Now (cs rc) = (w0, start) ->
  Namespaces_List w0 = (w1, Ok items) ->
  exists w2 calls entries snaps w3 finish,
    let rm := default (freshMetadata start) (last snaps) in
    Run rc
    = Some (None,
            after rc w3
              (entries ++ [summaryEntry rm (Time_Sub finish (StartTime rm))])
              (NowCall start :: NamespacesListCall (Ok items) :: calls ++ [NowCall finish])
              (freshMetadata start :: snaps))
    /\ namespaces_run (podFilter rc) items (freshMetadata start) calls entries snaps
    /\ time_Now w2 = (w3, finish).
Proof.
  intros Hnow Hlist. rewrite (Run_start _ _ _ Hnow).
  unfold bind at 1. unfold listNamespaces. cbn [cs after]. rewrite Hlist.
  rewrite with_world_after, after_after. cbn [app].
  set (rc1 := after rc _ _ _ _).
  destruct (Run_namespaces_run items rc1 (freshMetadata start) eq_refl)
    as (w2 & calls & entries & snaps & Hrun & Krun).
  unfold bind at 1. rewrite Hrun.
  destruct (time_Now w2) as [w3 finish] eqn:Hfin.
  exists w2, calls, entries, snaps, w3, finish. cbn zeta.
  split; [|split; [exact Krun | exact Hfin]].
  unfold bind at 1. unfold Run_summary. unfold bind at 1. unfold getMetadata.
  subst rc1. rewrite after_after. cbn [app metadata after].
  rewrite last_cons.
  destruct (last snaps) as [rm|] eqn:Hlast; cbn [from_option].
  all: unfold id, duration, timeNow, ret, logWithFields, bind; cbn [cs after];
    rewrite Hfin; cbn beta iota;
    rewrite with_world_after, with_entry_after, !after_after;
    cbn [app]; rewrite ?app_nil_r; reflexivity.
Qed.

(** ** Reading a history *)

Lemma submitted_app a b : submitted (a ++ b) = submitted a ++ submitted b.
Proof.
  induction a as [|[| | |] a IH]; cbn; rewrite ?IH; reflexivity.
Qed.

Lemma successes_app k a b : (successes k (a ++ b) = successes k a + successes k b)%nat.
Proof.
  induction a as [|[| |k' ? ? [e|]|] a IH]; cbn; rewrite ?IH; try reflexivity.
  now destruct (decide (k' = k)).
Qed.

Lemma listings_app a b : listings (a ++ b) = listings a ++ listings b.
Proof.
  induction a as [|[| | |] a IH]; cbn; rewrite ?IH; reflexivity.
Qed.

Lemma failedListings_app a b :
  failedListings (a ++ b) = failedListings a ++ failedListings b.
Proof.
  induction a as [|[|? ? [|]| |] a IH]; cbn; rewrite ?IH; reflexivity.
Qed.

Lemma successes_total calls :
  (successes Deployments calls + successes StatefulSets calls
   + successes DaemonSets calls <= length calls)%nat.
Proof.
  induction calls as [|[| |k ? ? [e|]|] calls IH]; cbn [successes length]; try lia.
  repeat case_decide; subst; try discriminate; lia.
Qed.

(** *** Facts about one pass *)

Section LoopFacts.

Variables (k : Kind) (namespace filter : string).

Lemma loop_run_count items calls entries n :
  loop_run k namespace filter items calls entries n ->
  (n <= length (List.filter (selected filter) items) <= length items)%nat.
Proof.
  induction 1 as [|obj rest calls entries n Hsel _ IH
                  |obj rest calls entries n t Hsel _ IH
                  |obj rest calls entries n t err Hsel _ IH];
    cbn [List.filter length]; rewrite ?Hsel; cbn [length]; lia.
Qed.

Lemma loop_run_successes items calls entries n :
  loop_run k namespace filter items calls entries n ->
  forall k', successes k' calls = if decide (k = k') then n else 0%nat.
Proof.
  induction 1 as [|obj rest calls entries n Hsel _ IH
                  |obj rest calls entries n t Hsel _ IH
                  |obj rest calls entries n t err Hsel _ IH];
    intros k'; cbn [successes]; rewrite ?IH; destruct (decide (k = k')); reflexivity.
Qed.

Lemma loop_run_submitted items calls entries n :
  loop_run k namespace filter items calls entries n ->
  map workloadName (submitted calls)
  = map workloadName (List.filter (selected filter) items).
Proof.
  induction 1 as [|obj rest calls entries n Hsel _ IH
                  |obj rest calls entries n t Hsel _ IH
                  |obj rest calls entries n t err Hsel _ IH];
    cbn [List.filter submitted map]; rewrite ?Hsel; cbn [map]; rewrite ?IH; reflexivity.
Qed.

Lemma loop_run_listings items calls entries n :
  loop_run k namespace filter items calls entries n ->
  listings calls = [] /\ failedListings calls = [].
Proof. induction 1; cbn; auto. Qed.

(** Every [Update] call of a pass submits an element of the listing that
    the filter selects, changed by [setRestartedAt] alone, with the text of
    the clock reading made just before the call. *)
Lemma loop_run_stamped items calls entries n :
  loop_run k namespace filter items calls entries n ->
  forall k' namespace' obj r,
    In (UpdateCall k' namespace' obj r) calls ->
    k' = k /\ namespace' = namespace /\
    exists item t before rest,
      In item items /\ selected filter item = true /\
      calls = before ++ NowCall t :: UpdateCall k namespace obj r :: rest /\
      obj = setRestartedAt (Format_RFC3339 t) item.
Proof.
  induction 1 as [|item0 rest calls entries n Hsel _ IH
                  |item0 rest calls entries n t Hsel _ IH
                  |item0 rest calls entries n t err Hsel _ IH];
    intros k' namespace' obj r Hin.
  - destruct Hin.
  - destruct (IH _ _ _ _ Hin) as (-> & -> & item & t & before & post & Hi & Hs & -> & ->).
    do 2 (split; [reflexivity|]). exists item, t, before, post. cbn; auto.
  - destruct Hin as [Hin|[Hin|Hin]]; [discriminate| |].
    + inversion Hin; subst. do 2 (split; [reflexivity|]).
      exists item0, t, [], calls. cbn; auto.
    + destruct (IH _ _ _ _ Hin) as (-> & -> & item & t' & before & post & Hi & Hs & -> & ->).
      do 2 (split; [reflexivity|]).
      exists item, t', (NowCall t :: UpdateCall k namespace (setRestartedAt (Format_RFC3339 t) item0) None :: before), post.
      cbn; auto.
  - destruct Hin as [Hin|[Hin|Hin]]; [discriminate| |].
    + inversion Hin; subst. do 2 (split; [reflexivity|]).
      exists item0, t, [], calls. cbn; auto.
    + destruct (IH _ _ _ _ Hin) as (-> & -> & item & t' & before & post & Hi & Hs & -> & ->).
      do 2 (split; [reflexivity|]).
      exists item, t', (NowCall t :: UpdateCall k namespace (setRestartedAt (Format_RFC3339 t) item0) (Some err) :: before), post.
      cbn; auto.
Qed.

End LoopFacts.

(** *** Facts about one kind of one namespace *)

Lemma restarted_add_error k err rm : restarted k (add_error err rm) = restarted k rm.
Proof. now destruct k. Qed.

Lemma restarted_incr_namespaces k rm : restarted k (incr_namespaces rm) = restarted k rm.
Proof. now destruct k. Qed.

Lemma restarted_add_restarted k k' n rm :
  restarted k' (add_restarted k n rm)
  = if decide (k = k') then GoInt.add (restarted k' rm) n else restarted k' rm.
Proof. destruct k, k'; reflexivity. Qed.

Section KindFacts.

Variables (k : Kind) (ns : Namespace) (filter : string).

Lemma kind_run_listings rm calls entries rm' :
  kind_run k ns filter rm calls entries rm' ->
  listings calls = [(k, namespaceName ns)].
Proof.
  intros [err|items calls' entries' n Hloop]; cbn; [reflexivity|].
  now destruct (loop_run_listings _ _ _ _ _ _ _ Hloop) as [-> _].
Qed.

Lemma Errors_add_restarted n rm : Errors (add_restarted k n rm) = Errors rm.
Proof. now destruct k. Qed.

Lemma NamespacesProcessed_add_restarted n rm :
  NamespacesProcessed (add_restarted k n rm) = NamespacesProcessed rm.
Proof. now destruct k. Qed.

Lemma kind_run_errors rm calls entries rm' :
  kind_run k ns filter rm calls entries rm' ->
  Errors rm' = Errors rm ++ map recorded (failedListings calls).
Proof.
  intros [err|items calls' entries' n Hloop]; cbn; [reflexivity|].
  destruct (loop_run_listings _ _ _ _ _ _ _ Hloop) as [_ ->].
  now rewrite Errors_add_restarted, app_nil_r.
Qed.

Lemma kind_run_namespaces rm calls entries rm' :
  kind_run k ns filter rm calls entries rm' ->
  NamespacesProcessed rm' = NamespacesProcessed rm.
Proof.
  intros [err|items calls' entries' n Hloop]; [reflexivity|].
  apply NamespacesProcessed_add_restarted.
Qed.

Lemma kind_run_counted pre rm calls entries rm' :
  kind_run k ns filter rm calls entries rm' ->
  Counted pre rm -> Counted (pre ++ calls) rm'.
Proof.
  intros [err|items calls' entries' n Hloop] Hc k'; rewrite successes_app.
  - cbn [successes]. now rewrite restarted_add_error, Nat.add_0_r.
  - cbn [successes]. rewrite restarted_add_restarted, Hc,
      (loop_run_successes _ _ _ _ _ _ _ Hloop k').
    destruct (decide (k = k')); [|now rewrite Nat.add_0_r].
    unfold GoInt.add. rewrite GoIntFacts.wrap_add_l, GoIntFacts.wrap_add_r. f_equal. lia.
Qed.

End KindFacts.

(** *** Facts about the loop over the namespaces *)

Lemma final_cons rm rm' snaps : final rm (rm' :: snaps) = final rm' snaps.
Proof. unfold final. rewrite last_cons. now destruct (last snaps). Qed.

Section NamespacesFacts.

Variable filter : string.

Lemma namespaces_run_listings items rm calls entries snaps :
  namespaces_run filter items rm calls entries snaps ->
  listings calls = flat_map schedule items.
Proof.
  induction 1 as [|ns rest rm c1 e1 rm1 c2 e2 rm2 c3 e3 rm3 calls entries snaps
                   K1 K2 K3 _ IH]; [reflexivity|].
  rewrite !listings_app, IH.
  now rewrite (kind_run_listings _ _ _ _ _ _ _ K1), (kind_run_listings _ _ _ _ _ _ _ K2),
    (kind_run_listings _ _ _ _ _ _ _ K3).
Qed.

Lemma namespaces_run_errors items rm calls entries snaps :
  namespaces_run filter items rm calls entries snaps ->
  Errors (final rm snaps) = Errors rm ++ map recorded (failedListings calls).
Proof.
  induction 1 as [|ns rest rm c1 e1 rm1 c2 e2 rm2 c3 e3 rm3 calls entries snaps
                   K1 K2 K3 _ IH]; [cbn; now rewrite app_nil_r|].
  rewrite !final_cons, IH, !failedListings_app, !map_app.
  rewrite (kind_run_errors _ _ _ _ _ _ _ K3), (kind_run_errors _ _ _ _ _ _ _ K2),
    (kind_run_errors _ _ _ _ _ _ _ K1).
  cbn [incr_namespaces Errors]. now rewrite <- !app_assoc.
Qed.

Lemma namespaces_run_processed items rm calls entries snaps :
  namespaces_run filter items rm calls entries snaps ->
  NamespacesProcessed (final rm snaps)
  = GoInt.wrap (NamespacesProcessed rm + Z.of_nat (length items))
    \/ (items = [] /\ final rm snaps = rm).
Proof.
  induction 1 as [|ns rest rm c1 e1 rm1 c2 e2 rm2 c3 e3 rm3 calls entries snaps
                   K1 K2 K3 _ IH]; [right; now split|left].
  rewrite !final_cons.
  assert (NamespacesProcessed rm3 = GoInt.wrap (NamespacesProcessed rm + 1)) as E3.
  { rewrite (kind_run_namespaces _ _ _ _ _ _ _ K3), (kind_run_namespaces _ _ _ _ _ _ _ K2),
      (kind_run_namespaces _ _ _ _ _ _ _ K1). reflexivity. }
  destruct IH as [->|[-> ->]].
  - rewrite E3, GoIntFacts.wrap_add_l. f_equal. cbn [length]. lia.
  - rewrite E3. f_equal.
Qed.

Lemma namespaces_run_counted items rm calls entries snaps :
  namespaces_run filter items rm calls entries snaps ->
  forall pre, Counted pre rm ->
    Counted (pre ++ calls) (final rm snaps) /\
    Forall (fun rm' => exists pre', (length pre' <= length (pre ++ calls))%nat /\
                                    Counted pre' rm') snaps.
Proof.
  induction 1 as [|ns rest rm c1 e1 rm1 c2 e2 rm2 c3 e3 rm3 calls entries snaps
                   K1 K2 K3 _ IH]; intros pre Hc.
  - split; [now rewrite app_nil_r | constructor].
  - assert (Counted pre (incr_namespaces rm)) as H0
        by (intros k; now rewrite restarted_incr_namespaces).
    pose proof (kind_run_counted _ _ _ _ _ _ _ _ K1 H0) as H1.
    pose proof (kind_run_counted _ _ _ _ _ _ _ _ K2 H1) as H2.
    pose proof (kind_run_counted _ _ _ _ _ _ _ _ K3 H2) as H3.
    destruct (IH _ H3) as [Hfin Hall].
    rewrite <- !app_assoc in Hfin, Hall. rewrite !final_cons.
    split; [exact Hfin|].
    repeat constructor; try exact Hall.
    + exists pre. split; [rewrite !length_app; lia | exact H0].
    + exists (pre ++ c1). split; [rewrite !length_app; lia | exact H1].
    + exists ((pre ++ c1) ++ c2). split; [rewrite !length_app; lia | exact H2].
    + exists (((pre ++ c1) ++ c2) ++ c3). split; [rewrite !length_app; lia | exact H3].
Qed.

End NamespacesFacts.

(** *** Errors against namespaces visited *)

Lemma Tagged_app visited ns err : Tagged visited err -> Tagged (visited ++ [ns]) err.
Proof.
  intros (ns' & k & cause & Hin & ->). exists ns', k, cause. split; [|reflexivity].
  apply in_or_app. now left.
Qed.

Lemma Visited_incr visited ns rm :
  Visited visited 0 rm -> Visited (visited ++ [ns]) 3 (incr_namespaces rm).
Proof.
  intros (Hn & Hlen & Htag). unfold Visited. cbn [incr_namespaces NamespacesProcessed Errors].
  rewrite length_app. cbn [length]. repeat split.
  - rewrite Hn. unfold GoInt.add. rewrite GoIntFacts.wrap_add_l. f_equal. lia.
  - lia.
  - eapply Forall_impl; [exact Htag|]. intros err. apply Tagged_app.
Qed.

Lemma Visited_kind_run k ns filter visited pending rm calls entries rm' :
  kind_run k ns filter rm calls entries rm' ->
  In ns visited ->
  Visited visited (S pending) rm -> Visited visited pending rm'.
Proof.
  intros [err|items calls' entries' n Hloop] Hin (Hn & Hlen & Htag); unfold Visited.
  - cbn [add_error NamespacesProcessed Errors]. rewrite length_app. cbn [length].
    repeat split; [exact Hn | lia |].
    apply Forall_app. split; [exact Htag|]. constructor; [|constructor].
    now exists ns, k, err.
  - rewrite NamespacesProcessed_add_restarted, Errors_add_restarted.
    repeat split; [exact Hn | lia | exact Htag].
Qed.

Lemma Visited_weaken visited pending rm :
  Visited visited pending rm -> Visited visited 0 rm.
Proof. intros (Hn & Hlen & Htag). repeat split; [exact Hn | lia | exact Htag]. Qed.

Lemma namespaces_run_visited filter items rm calls entries snaps :
  namespaces_run filter items rm calls entries snaps ->
  forall visited, Visited visited 0 rm ->
    Forall (fun rm' => exists visited' later,
                         visited ++ items = visited' ++ later /\
                         Visited visited' 0 rm') snaps.
Proof.
  induction 1 as [|ns rest rm c1 e1 rm1 c2 e2 rm2 c3 e3 rm3 calls entries snaps
                   K1 K2 K3 _ IH]; intros visited Hv; [constructor|].
  assert (In ns (visited ++ [ns])) as Hin by (apply in_or_app; right; now left).
  pose proof (Visited_incr _ ns _ Hv) as H0.
  pose proof (Visited_kind_run _ _ _ _ _ _ _ _ _ K1 Hin H0) as H1.
  pose proof (Visited_kind_run _ _ _ _ _ _ _ _ _ K2 Hin H1) as H2.
  pose proof (Visited_kind_run _ _ _ _ _ _ _ _ _ K3 Hin H2) as H3.
  assert (visited ++ ns :: rest = (visited ++ [ns]) ++ rest) as Happ
      by now rewrite <- app_assoc.
  repeat constructor.
  5: { eapply Forall_impl; [exact (IH _ H3)|].
       intros rm' (visited' & later & Heq & Hv').
       exists visited', later. split; [now rewrite Happ | exact Hv']. }
  all: exists (visited ++ [ns]), rest; split; [exact Happ|];
    eauto using Visited_weaken.
Qed.

(** ** The filter *)

Lemma selected_name filter obj obj' :
  workloadName obj = workloadName obj' -> selected filter obj = selected filter obj'.
Proof. unfold selected. now intros ->. Qed.


(** A filter with an upper-case letter selects nothing: the name is
    lowered, the filter is not. *)
Lemma selected_upper_filter filter obj :
  GoStrings.hasUpper filter = true -> selected filter obj = false.
Proof.
  intros H. unfold selected.
  apply GoStringsFacts.Contains_upper; [apply GoStringsFacts.ToLower_no_upper | exact H].
Qed.

Lemma selected_empty obj : selected "" obj = true.
Proof. apply GoStringsFacts.Contains_empty. Qed.

Lemma filter_selected_empty items : List.filter (selected "") items = items.
Proof.
  induction items as [|obj rest IH]; [reflexivity|].
  cbn [List.filter]. now rewrite selected_empty, IH.
Qed.

(** ** The mutation *)

Lemma setRestartedAt_only timestamp item :
  onlyRestartedAt timestamp item (setRestartedAt timestamp item).
Proof.
  unfold onlyRestartedAt, setRestartedAt, annotationsOf; cbn.
  repeat split.
Qed.

Lemma onlyRestartedAt_unique timestamp item obj :
  onlyRestartedAt timestamp item obj -> obj = setRestartedAt timestamp item.
Proof.
  destruct obj as [m [[[n a r] ts] sr] st].
  unfold onlyRestartedAt, setRestartedAt, annotationsOf; cbn.
  intros (-> & -> & -> & -> & -> & -> & ->). reflexivity.
Qed.

Lemma annotationsOf_setRestartedAt timestamp item key :
  annotationsOf (setRestartedAt timestamp item) !! key
  = if decide (key = restartedAt) then Some timestamp else annotationsOf item !! key.
Proof.
  unfold annotationsOf at 1, setRestartedAt; cbn.
  fold (annotationsOf item).
  destruct (decide (key = restartedAt)) as [->|Hne].
  - unfold annotationsOf. destruct (Annotations _); apply lookup_insert_eq.
  - unfold annotationsOf. destruct (Annotations _); now rewrite lookup_insert_ne.
Qed.

Lemma loop_run_objects k namespace filter items calls entries n :
  loop_run k namespace filter items calls entries n ->
  Forall2 (fun item obj => exists t, In (NowCall t) calls /\
                                     obj = setRestartedAt (Format_RFC3339 t) item)
          (List.filter (selected filter) items) (submitted calls).
Proof.
  induction 1 as [|obj rest calls entries n Hsel _ IH
                  |obj rest calls entries n t Hsel _ IH
                  |obj rest calls entries n t err Hsel _ IH];
    cbn [List.filter submitted]; rewrite ?Hsel; [constructor|exact IH| |].
  all: constructor; [exists t; split; [now left | reflexivity]|].
  all: eapply Forall2_impl; [exact IH|].
  all: intros item obj' (t' & Hin & ->); exists t'; split; [now do 2 right | reflexivity].
Qed.

(** ** The per-kind procedures: properties *)

(** C10.  When the listing call of a per-kind procedure succeeds with
    [items] (a Go slice, so its length fits an [int]), the procedure returns
    the nil error and a count between 0 and the number of workloads listed;
    on an empty listing the count is 0.  The three procedures are
    [restart Deployments], [restart StatefulSets] and [restart DaemonSets]. *)
Theorem restart_count_bounds k namespace rc w items :
  Workloads_List k namespace (cs rc) = (w, Ok items) ->
  Z.of_nat (length items) <= GoInt.int_max ->
  exists count rc',
    restart k namespace rc = Some ((count, None), rc')
    /\ 0 <= count <= Z.of_nat (length items)
    /\ (items = [] -> count = 0).
Proof.
  intros Hlist Hlen.
  destruct (restart_listed _ _ _ _ _ Hlist) as (w' & calls & entries & n & Hr & Hloop).
  pose proof (loop_run_count _ _ _ _ _ _ _ Hloop) as Hn.
  assert (GoInt.wrap (Z.of_nat n) = Z.of_nat n) as Hw.
  { apply GoIntFacts.wrap_id. unfold GoInt.in_range, GoInt.int_min, GoInt.int_max in *. lia. }
  do 2 eexists. split; [exact Hr|]. rewrite Hw. split; [lia|].
  intros ->. cbn in Hn. lia.
Qed.

(** C6.  The empty filter matches every workload name; with the filter [""]
    a procedure of any kind submits an update for every workload of the
    listing, in the order of the listing, each one the listed object with
    the restart annotation set. *)
Theorem empty_filter_selects_all k namespace rc w items :
  podFilter rc = "" ->
  Workloads_List k namespace (cs rc) = (w, Ok items) ->
  (forall obj, selected "" obj = true) /\
  exists count rc' calls,
    restart k namespace rc = Some ((count, None), rc')
    /\ history rc' = history rc ++ ListCall k namespace (Ok items) :: calls
    /\ Forall2 (fun item obj => exists t, In (NowCall t) calls /\
                                          obj = setRestartedAt (Format_RFC3339 t) item)
               items (submitted calls).
Proof.
  intros Hfilter Hlist. split; [exact selected_empty|].
  destruct (restart_listed _ _ _ _ _ Hlist) as (w' & calls & entries & n & Hr & Hloop).
  do 3 eexists. split; [exact Hr|]. split; [reflexivity|].
  rewrite Hfilter in Hloop.
  pose proof (loop_run_objects _ _ _ _ _ _ _ Hloop) as Hobj.
  now rewrite filter_selected_empty in Hobj.
Qed.

(** C5.  When the update of a matching workload [obj] fails, at whatever
    point of the loop (local count [count], client [rc]): the failure is
    logged, the count is not incremented for it, the metadata (and with it
    the run-level error list) is not written, and the loop goes on over the
    rest of the listing as a pass of its own, whose [n] successful updates
    are all added to the count and whose update calls are exactly the
    matching workloads of the rest.  And a procedure whose listing succeeds
    returns the nil error, whatever its updates did. *)
Theorem update_failure_is_skipped k namespace obj rest count rc w1 t w2 err :
  GoInt.in_range count ->
  selected (podFilter rc) obj = true ->
  time_Now (cs rc) = (w1, t) ->
  Workloads_Update k namespace (setRestartedAt (Format_RFC3339 t) obj) w1 = (w2, Some err) ->
  (exists n w calls entries rc',
     restart_items k namespace (obj :: rest) count rc
     = Some (GoInt.wrap (count + Z.of_nat n), rc')
     /\ rc' = after rc w
                (restartingEntry k namespace obj :: failedEntry k namespace obj err :: entries)
                (NowCall t :: UpdateCall k namespace (setRestartedAt (Format_RFC3339 t) obj)
                                (Some err) :: calls)
                []
     /\ metadata rc' = metadata rc
     /\ snapshots rc' = snapshots rc
     /\ loop_run k namespace (podFilter rc) rest calls entries n
     /\ n = successes k calls
     /\ map workloadName (submitted calls)
        = map workloadName (List.filter (selected (podFilter rc)) rest))
  /\ (forall namespace' rc0 w0 items,
        Workloads_List k namespace' (cs rc0) = (w0, Ok items) ->
        exists count' rc0', restart k namespace' rc0 = Some ((count', None), rc0')
                            /\ metadata rc0' = metadata rc0).
Proof.
  intros Hc Hsel Hnow Hupd. split.
  - rewrite (restart_items_failed _ _ _ _ _ _ _ _ _ _ Hsel Hnow Hupd).
    destruct (restart_items_run k namespace rest count
                (after rc w2 [restartingEntry k namespace obj; failedEntry k namespace obj err]
                   [NowCall t; UpdateCall k namespace (setRestartedAt (Format_RFC3339 t) obj)
                                 (Some err)] []) Hc)
      as (w & calls & entries & n & Hrun & Hloop).
    rewrite after_after in Hrun. cbn [app podFilter after] in Hrun, Hloop.
    exists n, w, calls, entries. eexists. split; [exact Hrun|].
    split; [reflexivity|]. cbn [metadata snapshots after last from_option].
    split; [reflexivity|]. split; [apply app_nil_r|]. split; [exact Hloop|].
    split.
    + rewrite (loop_run_successes _ _ _ _ _ _ _ Hloop k).
      now destruct (decide (k = k)).
    + exact (loop_run_submitted _ _ _ _ _ _ _ Hloop).
  - intros namespace' rc0 w0 items Hlist.
    destruct (restart_listed _ _ _ _ _ Hlist) as (w' & calls & entries & n & Hr & _).
    do 2 eexists. split; [exact Hr | reflexivity].
Qed.

(** C8.  In a procedure whose listing succeeded, the selected workloads
    and the objects submitted for update correspond one to one, in order;
    every [Update] call comes right after a reading [t] of the clock and
    submits a selected element [item] of the listing in which the pod
    template's annotation map is the old one (the empty map when it was
    nil) with the key [kubectl.kubernetes.io/restartedAt] set to [t] in
    RFC3339 format: every other field, and every other annotation, is the
    one of [item].  Besides the annotation map the procedure looks at the
    name only: the match and the two log entries are the same for two
    objects of the same name. *)
Theorem update_changes_only_restartedAt k namespace rc w items :
  Workloads_List k namespace (cs rc) = (w, Ok items) ->
  (exists count rc' calls,
     restart k namespace rc = Some ((count, None), rc')
     /\ history rc' = history rc ++ ListCall k namespace (Ok items) :: calls
     /\ length (submitted calls) = length (List.filter (selected (podFilter rc)) items)
     /\ forall k' namespace' obj r,
          In (UpdateCall k' namespace' obj r) calls ->
          exists item t before rest,
            In item items /\ selected (podFilter rc) item = true
            /\ calls = before ++ NowCall t :: UpdateCall k namespace obj r :: rest
            /\ onlyRestartedAt (Format_RFC3339 t) item obj
            /\ (forall key, key <> restartedAt ->
                            annotationsOf obj !! key = annotationsOf item !! key)
            /\ annotationsOf obj !! restartedAt = Some (Format_RFC3339 t))
  /\ (forall obj obj',
        workloadName obj = workloadName obj' ->
        selected (podFilter rc) obj = selected (podFilter rc) obj'
        /\ restartingEntry k namespace obj = restartingEntry k namespace obj'
        /\ forall err, failedEntry k namespace obj err = failedEntry k namespace obj' err).
Proof.
  intros Hlist. split.
  - destruct (restart_listed _ _ _ _ _ Hlist) as (w' & calls & entries & n & Hr & Hloop).
    do 3 eexists. split; [exact Hr|]. split; [reflexivity|]. split.
    + pose proof (loop_run_submitted _ _ _ _ _ _ _ Hloop) as Hs.
      apply (f_equal (@length string)) in Hs. now rewrite !length_map in Hs.
    + intros k' namespace' obj r Hin.
      destruct (loop_run_stamped _ _ _ _ _ _ _ Hloop _ _ _ _ Hin)
        as (_ & _ & item & t & before & rest & Hi & Hs & Hc & ->).
      exists item, t, before, rest.
      split; [exact Hi|]. split; [exact Hs|]. split; [exact Hc|].
      split; [apply setRestartedAt_only|]. split.
      * intros key Hne. rewrite annotationsOf_setRestartedAt.
        now destruct (decide (key = restartedAt)).
      * rewrite annotationsOf_setRestartedAt.
        now destruct (decide (restartedAt = restartedAt)).
  - intros obj obj' Hname. split; [exact (selected_name _ _ _ Hname)|].
    unfold restartingEntry, failedEntry. rewrite Hname. split; [reflexivity|].
    intros err0. reflexivity.
Qed.

(** ** Run: properties *)

Lemma Run_error_only_fatal rc err rc' :
  Run rc = Some (Some err, rc') ->
  exists w0 start w1 cause,
    time_Now (cs rc) = (w0, start) /\ Namespaces_List w0 = (w1, Err cause).
Proof.
  intros Hrun.
  destruct (time_Now (cs rc)) as [w0 start] eqn:Hnow.
  destruct (Namespaces_List w0) as [w1 [items|cause]] eqn:Hlist.
  - destruct (Run_listed _ _ _ _ _ Hnow Hlist)
      as (w2 & calls & entries & snaps & w3 & finish & Hr & _).
    cbn zeta in Hr. rewrite Hr in Hrun. discriminate.
  - now exists w0, start, w1, cause.
Qed.

(** C2.  If the namespace listing fails with [err], [Run] returns the error
    that wraps [err] with the text "failed to list namespaces: "; it has
    written nothing to the log (so no summary), it has made no call but the
    clock reading and the namespace listing (so no restart), and the
    metadata is the fresh one: counters 0, no error.  Conversely, when
    [Run] returns a non-nil error the namespace listing has failed. *)
Theorem Run_fails_on_namespace_listing rc w0 start w1 err :
  time_Now (cs rc) = (w0, start) ->
  Namespaces_List w0 = (w1, Err err) ->
  (exists rc',
     Run rc = Some (Some (wrapError ("failed to list namespaces: " +:+ Error err) err), rc')
     /\ log rc' = log rc
     /\ history rc' = history rc ++ [NowCall start; NamespacesListCall (Err err)]
     /\ metadata rc' = Some (freshMetadata start)
     /\ DeploymentsRestarted (freshMetadata start) = 0
     /\ StatefulSetsRestarted (freshMetadata start) = 0
     /\ DaemonSetsRestarted (freshMetadata start) = 0
     /\ NamespacesProcessed (freshMetadata start) = 0
     /\ Errors (freshMetadata start) = [])
  /\ (forall rc0 e rc0',
        Run rc0 = Some (Some e, rc0') ->
        exists w0' start' w1' cause,
          time_Now (cs rc0) = (w0', start') /\ Namespaces_List w0' = (w1', Err cause)).
Proof.
  intros Hnow Hlist. split; [|exact Run_error_only_fatal].
  eexists. split; [exact (Run_listing_failed _ _ _ _ _ Hnow Hlist)|].
  cbn [log history metadata after last from_option].
  repeat split. apply app_nil_r.
Qed.

(** C3.  If the namespace listing succeeds, [Run] returns the nil error,
    whatever the listings and updates of the workloads did.  What failed
    shows in the metadata only: the error list holds one entry per failed
    workload listing, each counter is the number of successful updates of
    its kind, and the last log entry is the summary of that metadata. *)
Theorem Run_succeeds_despite_failures rc w0 start w1 items :
  time_Now (cs rc) = (w0, start) ->
  Namespaces_List w0 = (w1, Ok items) ->
  exists rc' rm calls finish entries,
    Run rc = Some (None, rc')
    /\ metadata rc' = Some rm
    /\ history rc'
       = history rc ++ NowCall start :: NamespacesListCall (Ok items) :: calls ++ [NowCall finish]
    /\ Errors rm = map recorded (failedListings calls)
    /\ (forall k, restarted k rm = GoInt.wrap (Z.of_nat (successes k calls)))
    /\ NamespacesProcessed rm = GoInt.wrap (Z.of_nat (length items))
    /\ log rc' = log rc ++ entries ++ [summaryEntry rm (Time_Sub finish (StartTime rm))].
Proof.
  intros Hnow Hlist.
  destruct (Run_listed _ _ _ _ _ Hnow Hlist)
    as (w2 & calls & entries & snaps & w3 & finish & Hr & Hrun & _).
  cbn zeta in Hr.
  exists (after rc w3
            (entries ++ [summaryEntry (final (freshMetadata start) snaps)
                           (Time_Sub finish (StartTime (final (freshMetadata start) snaps)))])
            (NowCall start :: NamespacesListCall (Ok items) :: calls ++ [NowCall finish])
            (freshMetadata start :: snaps)),
    (final (freshMetadata start) snaps), calls, finish, entries.
  split; [exact Hr|]. split.
  { cbn [metadata after]. rewrite last_cons. unfold final.
    now destruct (last snaps). }
  split; [reflexivity|]. split.
  { now rewrite (namespaces_run_errors _ _ _ _ _ _ Hrun). }
  split.
  { assert (Counted [] (freshMetadata start)) as H0 by (intros k; now destruct k).
    exact (proj1 (namespaces_run_counted _ _ _ _ _ _ Hrun [] H0)). }
  split; [|reflexivity].
  destruct (namespaces_run_processed _ _ _ _ _ _ Hrun) as [->|[-> ->]]; reflexivity.
Qed.


Lemma Counted_exact pre rm :
  Counted pre rm ->
  Z.of_nat (length pre) <= GoInt.int_max ->
  0 <= DeploymentsRestarted rm /\ 0 <= StatefulSetsRestarted rm /\
  0 <= DaemonSetsRestarted rm /\
  totalRestarted rm
  = DeploymentsRestarted rm + StatefulSetsRestarted rm + DaemonSetsRestarted rm.
Proof.
  intros Hc Hlen. pose proof (successes_total pre) as Htot.
  pose proof (Hc Deployments) as Hd. pose proof (Hc StatefulSets) as Hs.
  pose proof (Hc DaemonSets) as Hds. cbn [restarted] in Hd, Hs, Hds.
  unfold totalRestarted, GoInt.add. rewrite Hd, Hs, Hds.
  assert (forall n : nat, (n <= length pre)%nat -> GoInt.wrap (Z.of_nat n) = Z.of_nat n) as Hw.
  { intros n Hn. apply GoIntFacts.wrap_id.
    unfold GoInt.in_range, GoInt.int_min, GoInt.int_max in *. lia. }
  rewrite (Hw (successes Deployments pre)), (Hw (successes StatefulSets pre)),
    (Hw (successes DaemonSets pre)) by lia.
  rewrite <- Nat2Z.inj_add.
  rewrite (Hw (successes Deployments pre + successes StatefulSets pre)%nat) by lia.
  rewrite <- Nat2Z.inj_add.
  rewrite (Hw (successes Deployments pre + successes StatefulSets pre
               + successes DaemonSets pre)%nat) by lia.
  lia.
Qed.

(** C7.  [Run] always returns, and in every value the metadata takes
    during the run (the fresh one, the one after each write, the final one)
    the total is the sum of the three counters: as Go computes it, and, the
    number of collaborator calls of the run fitting an [int], as the exact
    integer sum of three counters that are not negative.  The record has no
    field for the total: [totalRestarted] computes it from the counters. *)
Theorem totalRestarted_is_sum rc :
  exists res rc' calls snaps,
    Run rc = Some (res, rc')
    /\ history rc' = history rc ++ calls
    /\ snapshots rc' = snapshots rc ++ snaps
    /\ metadata rc' = last snaps
    /\ Forall (fun rm =>
          totalRestarted rm
          = GoInt.add (GoInt.add (DeploymentsRestarted rm) (StatefulSetsRestarted rm))
                      (DaemonSetsRestarted rm)
          /\ (Z.of_nat (length calls) <= GoInt.int_max ->
              0 <= DeploymentsRestarted rm /\ 0 <= StatefulSetsRestarted rm /\
              0 <= DaemonSetsRestarted rm /\
              totalRestarted rm
              = DeploymentsRestarted rm + StatefulSetsRestarted rm
                + DaemonSetsRestarted rm)) snaps.
Proof.
  assert (forall start, Counted [] (freshMetadata start)) as Hfresh
      by (intros start k; now destruct k).
  destruct (time_Now (cs rc)) as [w0 start] eqn:Hnow.
  destruct (Namespaces_List w0) as [w1 [items|err]] eqn:Hlist.
  - destruct (Run_listed _ _ _ _ _ Hnow Hlist)
      as (w2 & calls & entries & snaps & w3 & finish & Hr & Hrun & _).
    cbn zeta in Hr. do 4 eexists. split; [exact Hr|].
    cbn [history snapshots metadata after]. split; [reflexivity|].
    split; [reflexivity|]. split; [rewrite last_cons; now destruct (last snaps)|].
    destruct (namespaces_run_counted _ _ _ _ _ _ Hrun [] (Hfresh start)) as [_ Hall].
    constructor.
    + split; [reflexivity|]. intros Hlen. apply (Counted_exact [] _ (Hfresh start)).
      cbn. unfold GoInt.int_max. lia.
    + eapply Forall_impl; [exact Hall|].
      intros rm (pre & Hpre & Hc). split; [reflexivity|]. intros Hlen.
      apply (Counted_exact pre _ Hc).
      cbn [length app] in Hlen, Hpre. rewrite length_app in Hlen. lia.
  - do 4 eexists. split; [exact (Run_listing_failed _ _ _ _ _ Hnow Hlist)|].
    cbn [history snapshots metadata after last from_option].
    do 3 (split; [reflexivity|]).
    constructor; [|constructor]. split; [reflexivity|]. intros _.
    apply (Counted_exact [] _ (Hfresh start)). cbn. unfold GoInt.int_max. lia.
Qed.

(** C9.  [Run] always returns, and in every value the metadata takes
    during the run the error list has at most 3 entries per namespace
    counted as processed, each entry being the record of a failed listing
    in one of the namespaces counted so far (the first
    [NamespacesProcessed] elements of the namespace listing).  The
    namespace listing is a Go slice: its length fits an [int]. *)
Theorem errors_at_most_three_per_namespace rc w0 start w1 r :
  time_Now (cs rc) = (w0, start) ->
  Namespaces_List w0 = (w1, r) ->
  Z.of_nat (length (listed r)) <= GoInt.int_max ->
  exists res rc' snaps,
    Run rc = Some (res, rc')
    /\ snapshots rc' = snapshots rc ++ snaps
    /\ metadata rc' = last snaps
    /\ Forall (fun rm =>
          0 <= NamespacesProcessed rm <= Z.of_nat (length (listed r))
          /\ Z.of_nat (length (Errors rm)) <= 3 * NamespacesProcessed rm
          /\ Forall (Tagged (take (Z.to_nat (NamespacesProcessed rm)) (listed r)))
                    (Errors rm)) snaps.
Proof.
  intros Hnow Hlist Hlen.
  assert (forall rm : rolloutMetadata,
             (exists visited later, [] ++ listed r = visited ++ later /\ Visited visited 0 rm) ->
             0 <= NamespacesProcessed rm <= Z.of_nat (length (listed r))
             /\ Z.of_nat (length (Errors rm)) <= 3 * NamespacesProcessed rm
             /\ Forall (Tagged (take (Z.to_nat (NamespacesProcessed rm)) (listed r)))
                       (Errors rm)) as Hgoal.
  { intros rm (visited & later & Heq & Hn & Hle & Htag). cbn [app] in Heq.
    assert (NamespacesProcessed rm = Z.of_nat (length visited)) as HN.
    { rewrite Hn. apply GoIntFacts.wrap_id.
      rewrite Heq, length_app in Hlen.
      unfold GoInt.in_range, GoInt.int_min, GoInt.int_max in *. lia. }
    rewrite HN, Nat2Z.id, Heq, take_app_length, length_app.
    split; [lia|]. split; [lia | exact Htag]. }
  assert (Visited [] 0 (freshMetadata start)) as Hfresh.
  { repeat split; cbn; [lia | constructor]. }
  destruct r as [items|err].
  - destruct (Run_listed _ _ _ _ _ Hnow Hlist)
      as (w2 & calls & entries & snaps & w3 & finish & Hr & Hrun & _).
    cbn zeta in Hr. do 3 eexists. split; [exact Hr|].
    cbn [snapshots metadata after]. split; [reflexivity|].
    split; [rewrite last_cons; now destruct (last snaps)|].
    constructor.
    + apply Hgoal. exists [], items. now split.
    + eapply Forall_impl; [exact (namespaces_run_visited _ _ _ _ _ _ Hrun [] Hfresh)|].
      exact Hgoal.
  - do 3 eexists. split; [exact (Run_listing_failed _ _ _ _ _ Hnow Hlist)|].
    cbn [snapshots metadata after last from_option].
    do 2 (split; [reflexivity|]).
    constructor; [|constructor]. apply Hgoal. exists [], []. now split.
Qed.

End RolloutFacts.

(** ** On the scripted cluster *)

Module DemoFacts.

Import Demo.

Local Open Scope string_scope.
Local Open Scope list_scope.

(** *** The filter is compared as given *)

(** C1.  A case-insensitive match selects a workload when the lowered name
    contains the lowered filter.  The loops lower the name only: with the
    filter "DB" the deployment "db-primary" satisfies that condition, the
    condition of the code is false for it, and [restartDeployments] counts
    0 and submits nothing. *)
Theorem upper_case_filter_selects_nothing :
  GoStrings.Contains (GoStrings.ToLower "db-primary") (GoStrings.ToLower "DB") = true
  /\ selected "DB" (workload ("db-primary", None)) = false
  /\ exists rc', restart Deployments "db" (client "DB") = Some ((0, None), rc')
                 /\ submitted (history rc') = [].
Proof.
  split; [reflexivity|]. split; [reflexivity|].
  eexists. split; [vm_compute; reflexivity | reflexivity].
Qed.

(** *** Instances of the properties *)


(** C10 on the three deployments of [db], filter "db". *)
Lemma restart_count_bounds_demo :
  exists count rc',
    restart Deployments "db" (client "db") = Some ((count, None), rc')
    /\ 0 <= count <= Z.of_nat (length dbDeployments)
    /\ (dbDeployments = [] -> count = 0).
Proof.
  apply (restart_count_bounds Deployments "db" (client "db") world dbDeployments).
  - reflexivity.
  - vm_compute. discriminate.
Defined.

(** C6 on the two statefulsets of [db]. *)
Lemma empty_filter_selects_all_demo :
  (forall obj, selected "" obj = true) /\
  exists count rc' calls,
    restart StatefulSets "db" (client "") = Some ((count, None), rc')
    /\ history rc' = history (client "") ++ ListCall StatefulSets "db" (Ok dbStatefulSets) :: calls
    /\ Forall2 (fun item obj => exists t, In (NowCall t) calls /\
                                          obj = setRestartedAt (Format_RFC3339 t) item)
               dbStatefulSets (submitted calls).
Proof.
  apply (empty_filter_selects_all StatefulSets "db" (client "") world dbStatefulSets);
    reflexivity.
Defined.

(** C5 on the statefulsets of [db]: the update of "db-store" is refused,
    "db-backup" follows. *)
Lemma update_failure_is_skipped_demo :
  (exists n w calls entries rc',
     restart_items StatefulSets "db" dbStatefulSets 0 (client "db")
     = Some (GoInt.wrap (0 + Z.of_nat n), rc')
     /\ rc' = after (client "db") w
                (restartingEntry StatefulSets "db" (workload ("db-store", None))
                 :: failedEntry StatefulSets "db" (workload ("db-store", None)) refusal
                 :: entries)
                (NowCall 0%N
                 :: UpdateCall StatefulSets "db"
                      (setRestartedAt (Format_RFC3339 0%N) (workload ("db-store", None)))
                      (Some refusal)
                 :: calls)
                []
     /\ metadata rc' = metadata (client "db")
     /\ snapshots rc' = snapshots (client "db")
     /\ loop_run StatefulSets "db" "db" [workload ("db-backup", None)] calls entries n
     /\ n = successes StatefulSets calls
     /\ map workloadName (submitted calls)
        = map workloadName (List.filter (selected "db") [workload ("db-backup", None)]))
  /\ (forall namespace' rc0 w0 items,
        Workloads_List StatefulSets namespace' (cs rc0) = (w0, Ok items) ->
        exists count' rc0', restart StatefulSets namespace' rc0 = Some ((count', None), rc0')
                            /\ metadata rc0' = metadata rc0).
Proof.
  apply (update_failure_is_skipped StatefulSets "db" (workload ("db-store", None))
           [workload ("db-backup", None)] 0 (client "db") (tick world) 0%N (tick world)
           refusal).
  - vm_compute. split; discriminate.
  - reflexivity.
  - reflexivity.
  - reflexivity.
Defined.

(** C8 on the deployments of [db], filter "db". *)
Lemma update_changes_only_restartedAt_demo :
  (exists count rc' calls,
     restart Deployments "db" (client "db") = Some ((count, None), rc')
     /\ history rc' = history (client "db") ++ ListCall Deployments "db" (Ok dbDeployments) :: calls
     /\ length (submitted calls) = length (List.filter (selected "db") dbDeployments)
     /\ forall k' namespace' obj r,
          In (UpdateCall k' namespace' obj r) calls ->
          exists item t before rest,
            In item dbDeployments /\ selected "db" item = true
            /\ calls = before ++ NowCall t :: UpdateCall Deployments "db" obj r :: rest
            /\ onlyRestartedAt (Format_RFC3339 t) item obj
            /\ (forall key, key <> restartedAt ->
                            annotationsOf obj !! key = annotationsOf item !! key)
            /\ annotationsOf obj !! restartedAt = Some (Format_RFC3339 t))
  /\ (forall obj obj',
        workloadName obj = workloadName obj' ->
        selected "db" obj = selected "db" obj'
        /\ restartingEntry Deployments "db" obj = restartingEntry Deployments "db" obj'
        /\ forall err, failedEntry Deployments "db" obj err
                       = failedEntry Deployments "db" obj' err).
Proof.
  apply (update_changes_only_restartedAt Deployments "db" (client "db") world dbDeployments).
  reflexivity.
Defined.

(** C2 on the cluster whose namespaces cannot be listed. *)
Lemma Run_fails_on_namespace_listing_demo :
  (exists rc',
     Run stranded
     = Some (Some (wrapError "failed to list namespaces: connection refused"
                     (errorString "connection refused")), rc')
     /\ log rc' = []
     /\ history rc' = [NowCall 0%N; NamespacesListCall (Err (errorString "connection refused"))]
     /\ metadata rc' = Some (freshMetadata (T := types) 0%N)
     /\ DeploymentsRestarted (freshMetadata (T := types) 0%N) = 0
     /\ StatefulSetsRestarted (freshMetadata (T := types) 0%N) = 0
     /\ DaemonSetsRestarted (freshMetadata (T := types) 0%N) = 0
     /\ NamespacesProcessed (freshMetadata (T := types) 0%N) = 0
     /\ Errors (freshMetadata (T := types) 0%N) = [])
  /\ (forall rc0 e rc0',
        Run rc0 = Some (Some e, rc0') ->
        exists w0' start' w1' cause,
          time_Now (cs rc0) = (w0', start') /\ Namespaces_List w0' = (w1', Err cause)).
Proof.
  apply (Run_fails_on_namespace_listing stranded
           (tick unreachable) 0%N (tick unreachable) (errorString "connection refused"));
    reflexivity.
Defined.

(** C3 on the cluster with a refused update and a failed listing. *)
Lemma Run_succeeds_despite_failures_demo :
  exists rc' rm calls finish entries,
    Run (client "db") = Some (None, rc')
    /\ metadata rc' = Some rm
    /\ history rc'
       = history (client "db")
         ++ NowCall 0%N :: NamespacesListCall (Ok (map namespace ["default"; "db"]))
            :: calls ++ [NowCall finish]
    /\ Errors rm = map recorded (failedListings calls)
    /\ (forall k, restarted k rm = GoInt.wrap (Z.of_nat (successes k calls)))
    /\ NamespacesProcessed rm = GoInt.wrap (Z.of_nat (length (map namespace ["default"; "db"])))
    /\ log rc' = log (client "db") ++ entries
                 ++ [summaryEntry rm (Time_Sub finish (StartTime rm))].
Proof.
  apply (Run_succeeds_despite_failures (client "db") (tick world) 0%N (tick world)
           (map namespace ["default"; "db"])); reflexivity.
Defined.


(** C9 on the two namespaces of the cluster. *)
Lemma errors_at_most_three_per_namespace_demo :
  exists res rc' snaps,
    Run (client "db") = Some (res, rc')
    /\ snapshots rc' = snapshots (client "db") ++ snaps
    /\ metadata rc' = last snaps
    /\ Forall (fun rm =>
          0 <= NamespacesProcessed rm <= 2
          /\ Z.of_nat (length (Errors rm)) <= 3 * NamespacesProcessed rm
          /\ Forall (Tagged (take (Z.to_nat (NamespacesProcessed rm))
                               (map namespace ["default"; "db"])))
                    (Errors rm)) snaps.
Proof.
  apply (errors_at_most_three_per_namespace (client "db") (tick world) 0%N (tick world)
           (Ok (map namespace ["default"; "db"]))).
  - reflexivity.
  - reflexivity.
  - vm_compute. discriminate.
Defined.

(** C7 on the cluster: the run makes 17 calls, every value of the metadata
    has the exact sum as its total, and the final total is 3. *)
Lemma totalRestarted_is_sum_demo :
  Forall (fun rm =>
            totalRestarted rm
            = DeploymentsRestarted rm + StatefulSetsRestarted rm + DaemonSetsRestarted rm)
         (snapshots (finished (client "db")))
  /\ (totalRestarted <$> metadata (finished (client "db"))) = Some 3.
Proof.
  destruct (totalRestarted_is_sum (client "db"))
    as (res & rc' & calls & snaps & Hrun & Hhist & Hsnaps & Hmeta & Hall).
  split; [|reflexivity].
  unfold finished. rewrite Hrun, Hsnaps. cbn [snapshots client NewRolloutClient app].
  assert (Z.of_nat (length calls) <= GoInt.int_max) as Hlen.
  { assert (length calls = length (history (finished (client "db")))) as ->.
    { unfold finished. rewrite Hrun, Hhist. reflexivity. }
    vm_compute. discriminate. }
  eapply Forall_impl; [exact Hall|].
  intros rm [_ Hsum]. exact (proj2 (proj2 (proj2 (Hsum Hlen)))).
Defined.

End DemoFacts.

(** ** More of the package: properties *)

Section CallerFacts.

Context {T : Types} {api : Collaborators}.

Local Open Scope string_scope.
Local Open Scope list_scope.

(** *** One procedure for the three kinds *)

Lemma restart_items_restartWith k namespace items count rc :
  restart_items k namespace items count rc
  = restartWith_items (updateWorkload k) (kindLabel k) namespace items count rc.
Proof.
  revert count rc.
  destruct k; induction items as [|obj rest IH]; intros count rc; try reflexivity.
  all: cbn [restart_items restartDeployments_items restartStatefulSets_items
            restartDaemonSets_items restartWith_items kindLabel] in *.
  all: unfold bind, getPodFilter, logWithFields, timeNow, updateWorkload.
  all: destruct (GoStrings.Contains _ _); [|apply IH].
  all: cbn [cs with_entry]; destruct (time_Now (cs rc)) as [w1 t].
  all: cbn [cs with_world]; destruct (Workloads_Update _ _ _ w1) as [w2 [err|]].
  all: apply IH.
Qed.

(** X2.  The three restart procedures are one procedure: each is
    [restartWith] over the two calls of its typed client and the word of
    its log entries, with the same result and the same effects on every
    client. *)
Theorem restart_procedures_are_one namespace rc :
  restartDeployments namespace rc
  = restartWith (listWorkloads Deployments) (updateWorkload Deployments) "deployment"
      namespace rc
  /\ restartStatefulSets namespace rc
     = restartWith (listWorkloads StatefulSets) (updateWorkload StatefulSets) "statefulset"
         namespace rc
  /\ restartDaemonSets namespace rc
     = restartWith (listWorkloads DaemonSets) (updateWorkload DaemonSets) "daemonset"
         namespace rc.
Proof.
  repeat split.
  all: unfold restartDeployments, restartStatefulSets, restartDaemonSets, restartWith, bind.
  all: destruct (listWorkloads _ namespace rc) as [[[items|err] rc']|]; try reflexivity.
  - now rewrite <- (restart_items_restartWith Deployments).
  - now rewrite <- (restart_items_restartWith StatefulSets).
  - now rewrite <- (restart_items_restartWith DaemonSets).
Qed.

(** *** The mutation, applied again *)

(** X3.  The restart annotation is overwritten, not accumulated: applying
    the mutation with [t2] to an object that already went through it with
    [t1] gives the object the mutation with [t2] alone gives.  And the
    mutation never changes whether the filter selects the object, so a
    second run restarts the same workloads again. *)
Theorem setRestartedAt_overwrites t1 t2 filter obj :
  setRestartedAt t2 (setRestartedAt t1 obj) = setRestartedAt t2 obj
  /\ selected filter (setRestartedAt t1 obj) = selected filter obj
  /\ annotationsOf (setRestartedAt t2 (setRestartedAt t1 obj)) !! restartedAt = Some t2.
Proof.
  split; [|split; [reflexivity|]].
  - unfold setRestartedAt; cbn. now rewrite insert_insert_eq.
  - rewrite annotationsOf_setRestartedAt. now destruct (decide (restartedAt = restartedAt)).
Qed.

(** *** A filter that selects nothing *)

Lemma loop_run_none k namespace filter items calls entries n :
  loop_run k namespace filter items calls entries n ->
  (forall obj, In obj items -> selected filter obj = false) ->
  calls = [] /\ entries = [] /\ n = 0%nat.
Proof.
  induction 1 as [|obj rest calls entries n Hsel _ IH
                  |obj rest calls entries n t Hsel _ IH
                  |obj rest calls entries n t err Hsel _ IH]; intros Hnone.
  - auto.
  - apply IH. intros o Ho. apply Hnone. now right.
  - rewrite (Hnone obj) in Hsel by now left. discriminate.
  - rewrite (Hnone obj) in Hsel by now left. discriminate.
Qed.

Lemma kind_run_none k ns filter rm calls entries rm' :
  kind_run k ns filter rm calls entries rm' ->
  (forall obj, selected filter obj = false) ->
  submitted calls = [].
Proof.
  intros [err|items calls' entries' n Hloop] Hnone; [reflexivity|].
  destruct (loop_run_none _ _ _ _ _ _ _ Hloop) as (-> & _ & _); [|reflexivity].
  intros obj _. apply Hnone.
Qed.

Lemma namespaces_run_none filter items rm calls entries snaps :
  namespaces_run filter items rm calls entries snaps ->
  (forall obj, selected filter obj = false) ->
  submitted calls = [].
Proof.
  induction 1 as [|ns rest rm c1 e1 rm1 c2 e2 rm2 c3 e3 rm3 calls entries snaps
                   K1 K2 K3 _ IH]; intros Hnone; [reflexivity|].
  rewrite !submitted_app, (IH Hnone).
  now rewrite (kind_run_none _ _ _ _ _ _ _ K1 Hnone), (kind_run_none _ _ _ _ _ _ _ K2 Hnone),
    (kind_run_none _ _ _ _ _ _ _ K3 Hnone).
Qed.

Lemma successes_le_submitted k calls :
  (successes k calls <= length (submitted calls))%nat.
Proof.
  induction calls as [|[| |k' ? ? [e|]|] calls IH]; cbn [successes submitted length]; try lia.
  destruct (decide (k' = k)); lia.
Qed.

(** X4.  With a filter that holds an upper-case ASCII letter [Run] submits
    no update at all, whatever the cluster holds, and ends with the three
    counters at 0: the names are lowered before the comparison, the filter
    is not. *)
Theorem upper_case_filter_updates_nothing rc :
  GoStrings.hasUpper (podFilter rc) = true ->
  exists res rc' calls rm,
    Run rc = Some (res, rc')
    /\ history rc' = history rc ++ calls
    /\ submitted calls = []
    /\ metadata rc' = Some rm
    /\ forall k, restarted k rm = 0.
Proof.
  intros Hup.
  assert (forall obj, selected (podFilter rc) obj = false) as Hnone
      by (intros obj; now apply selected_upper_filter).
  destruct (time_Now (cs rc)) as [w0 start] eqn:Hnow.
  destruct (Namespaces_List w0) as [w1 [items|err]] eqn:Hlist.
  - destruct (Run_listed _ _ _ _ _ Hnow Hlist)
      as (w2 & calls & entries & snaps & w3 & finish & Hr & Hrun & _).
    cbn zeta in Hr.
    pose proof (namespaces_run_none _ _ _ _ _ _ Hrun Hnone) as Hsub.
    do 3 eexists. exists (final (freshMetadata start) snaps).
    split; [exact Hr|]. cbn [history metadata after]. split; [reflexivity|].
    split; [cbn [submitted]; now rewrite submitted_app, Hsub|].
    split; [rewrite last_cons; unfold final; now destruct (last snaps)|].
    intros k.
    assert (Counted [] (freshMetadata start)) as H0 by (intros k'; now destruct k').
    rewrite (proj1 (namespaces_run_counted _ _ _ _ _ _ Hrun [] H0) k). cbn [app].
    pose proof (successes_le_submitted k calls) as Hle. rewrite Hsub in Hle.
    cbn [length] in Hle. now replace (successes k calls) with 0%nat by lia.
  - do 3 eexists. exists (freshMetadata start).
    split; [exact (Run_listing_failed _ _ _ _ _ Hnow Hlist)|].
    cbn [history metadata after last from_option]. repeat split.
    intros k. now destruct k.
Qed.

(** *** No namespace *)

(** X5.  On a cluster that lists no namespace [Run] returns the nil error
    after three collaborator calls (the clock, the listing, the clock for
    the duration) and one log entry, the summary of the fresh metadata:
    every counter 0, no error. *)
Theorem Run_no_namespaces rc w0 start w1 w2 finish :
  time_Now (cs rc) = (w0, start) ->
  Namespaces_List w0 = (w1, Ok []) ->
  time_Now w1 = (w2, finish) ->
  Run rc
  = Some (None,
          after rc w2
            [summaryEntry (freshMetadata start) (Time_Sub finish start)]
            [NowCall start; NamespacesListCall (Ok []); NowCall finish]
            [freshMetadata start]).
Proof.
  intros Hnow Hlist Hfin. rewrite (Run_start _ _ _ Hnow).
  unfold bind at 1. unfold listNamespaces. cbn [cs after]. rewrite Hlist.
  cbn [Run_namespaces].
  unfold Run_summary, getMetadata, duration, timeNow, logWithFields, ret, bind.
  cbn [metadata cs with_world after last from_option]. rewrite Hfin.
  rewrite !with_world_after, with_entry_after, !after_after. reflexivity.
Qed.

(** *** The start time and the duration *)

Lemma kind_run_StartTime k ns filter rm calls entries rm' :
  kind_run k ns filter rm calls entries rm' -> StartTime rm' = StartTime rm.
Proof. intros [err|items calls' entries' n Hloop]; [reflexivity | now destruct k]. Qed.

Lemma namespaces_run_StartTime filter items rm calls entries snaps :
  namespaces_run filter items rm calls entries snaps ->
  Forall (fun rm' => StartTime rm' = StartTime rm) snaps.
Proof.
  induction 1 as [|ns rest rm c1 e1 rm1 c2 e2 rm2 c3 e3 rm3 calls entries snaps
                   K1 K2 K3 _ IH]; [constructor|].
  pose proof (kind_run_StartTime _ _ _ _ _ _ _ K1) as H1. cbn in H1.
  pose proof (kind_run_StartTime _ _ _ _ _ _ _ K2) as H2.
  pose proof (kind_run_StartTime _ _ _ _ _ _ _ K3) as H3.
  repeat constructor; try congruence.
  eapply Forall_impl; [exact IH|]. intros rm' Hrm'. cbn beta in Hrm'. congruence.
Qed.

(** X6.  The start time is written once: every value the metadata takes
    during a run holds the first clock reading of the run.  The duration in
    the summary is the last clock reading of the run minus that first one,
    as [time.Duration.String] prints it. *)
Theorem Run_reports_elapsed_time rc w0 start w1 items :
  time_Now (cs rc) = (w0, start) ->
  Namespaces_List w0 = (w1, Ok items) ->
  exists rc' snaps calls finish summary,
    Run rc = Some (None, rc')
    /\ snapshots rc' = snapshots rc ++ snaps
    /\ Forall (fun rm => StartTime rm = start) snaps
    /\ history rc' = history rc ++ NowCall start :: calls ++ [NowCall finish]
    /\ last (log rc') = Some summary
    /\ Message summary = "Rollout completed"
    /\ Data summary !! "duration"
       = Some (StringField (Duration_String (Time_Sub finish start))).
Proof.
  intros Hnow Hlist.
  destruct (Run_listed _ _ _ _ _ Hnow Hlist)
    as (w2 & calls & entries & snaps & w3 & finish & Hr & Hrun & _).
  cbn zeta in Hr.
  pose proof (namespaces_run_StartTime _ _ _ _ _ _ Hrun) as Hst. cbn in Hst.
  assert (StartTime (default (freshMetadata start) (last snaps)) = start) as Hfin.
  { destruct (last snaps) as [rm|] eqn:Hl; [|reflexivity].
    apply last_Some in Hl as [l' ->]. apply Forall_app in Hst as [_ Hst].
    now inversion Hst. }
  eexists. exists (freshMetadata start :: snaps), (NamespacesListCall (Ok items) :: calls), finish.
  eexists. split; [exact Hr|]. cbn [snapshots history log after].
  split; [reflexivity|]. split; [constructor; [reflexivity | exact Hst]|].
  split; [reflexivity|]. rewrite app_assoc, last_snoc.
  split; [reflexivity|]. split; [reflexivity|].
  rewrite Hfin. reflexivity.
Qed.

(** *** Where an update comes from *)

Lemma listings_nil_app a b : listings (a ++ b) = [] -> listings a = [] /\ listings b = [].
Proof. rewrite listings_app. apply app_eq_nil. Qed.

Lemma fromListing_weaken filter earlier later pre post items calls k namespace obj r :
  fromListing filter items calls k namespace obj r ->
  fromListing filter (earlier ++ items ++ later) (pre ++ calls ++ post) k namespace obj r.
Proof.
  intros (n0 & listing & item & t & before & between & rest
          & Hin & Hname & -> & Hb & Hi & Hs & Ho).
  exists n0, listing, item, t, (pre ++ before), between, (rest ++ post).
  split; [apply in_or_app; right; apply in_or_app; now left|]. split; [exact Hname|].
  split; [|auto]. rewrite <- !app_assoc. cbn [app]. rewrite <- !app_assoc. reflexivity.
Qed.

Lemma kind_run_fromListing k ns filter rm calls entries rm' k' namespace obj r :
  kind_run k ns filter rm calls entries rm' ->
  In (UpdateCall k' namespace obj r) calls ->
  fromListing filter [ns] calls k' namespace obj r.
Proof.
  intros [err|items calls' entries' n Hloop] Hin.
  - destruct Hin as [Hin|[]]. discriminate.
  - destruct Hin as [Hin|Hin]; [discriminate|].
    destruct (loop_run_stamped _ _ _ _ _ _ _ Hloop _ _ _ _ Hin)
      as (-> & -> & item & t & before & rest & Hi & Hs & Hc & Ho).
    exists ns, items, item, t, [], before, rest.
    split; [now left|]. split; [reflexivity|]. split; [cbn; now rewrite Hc|].
    split; [|auto].
    destruct (loop_run_listings _ _ _ _ _ _ _ Hloop) as [Hl _].
    rewrite Hc in Hl. now apply listings_nil_app in Hl.
Qed.

Lemma namespaces_run_fromListing filter items rm calls entries snaps k namespace obj r :
  namespaces_run filter items rm calls entries snaps ->
  In (UpdateCall k namespace obj r) calls ->
  fromListing filter items calls k namespace obj r.
Proof.
  induction 1 as [|ns rest rm c1 e1 rm1 c2 e2 rm2 c3 e3 rm3 calls entries snaps
                   K1 K2 K3 _ IH]; intros Hin; [destruct Hin|].
  apply in_app_or in Hin as [Hin|Hin];
    [|apply in_app_or in Hin as [Hin|Hin]; [|apply in_app_or in Hin as [Hin|Hin]]].
  - pose proof (kind_run_fromListing _ _ _ _ _ _ _ _ _ _ _ K1 Hin) as H1.
    apply (fromListing_weaken _ [] rest [] (c2 ++ c3 ++ calls)) in H1.
    exact H1.
  - pose proof (kind_run_fromListing _ _ _ _ _ _ _ _ _ _ _ K2 Hin) as H2.
    apply (fromListing_weaken _ [] rest c1 (c3 ++ calls)) in H2.
    exact H2.
  - pose proof (kind_run_fromListing _ _ _ _ _ _ _ _ _ _ _ K3 Hin) as H3.
    apply (fromListing_weaken _ [] rest (c1 ++ c2) calls) in H3.
    cbn [app] in H3. now rewrite <- !app_assoc in H3.
  - pose proof (IH Hin) as H4.
    apply (fromListing_weaken _ [ns] [] (c1 ++ c2 ++ c3) []) in H4.
    rewrite !app_nil_r in H4. cbn [app] in H4.
    now rewrite <- !app_assoc in H4.
Qed.

(** X7.  [Run] updates nothing it has not listed: every [Update] call of a
    run is for a kind and a namespace whose listing has just succeeded (the
    namespace is one of the namespace listing, and no other workload
    listing comes in between), and the object it submits is an element of
    that listing that the filter selects, with the restart annotation set
    to the clock reading made right before the call. *)
Theorem Run_updates_only_what_it_listed rc w0 start w1 items :
  time_Now (cs rc) = (w0, start) ->
  Namespaces_List w0 = (w1, Ok items) ->
  exists rc' calls finish,
    Run rc = Some (None, rc')
    /\ history rc'
       = history rc ++ NowCall start :: NamespacesListCall (Ok items)
                       :: calls ++ [NowCall finish]
    /\ forall k namespace obj r,
         In (UpdateCall k namespace obj r) calls ->
         fromListing (podFilter rc) items calls k namespace obj r.
Proof.
  intros Hnow Hlist.
  destruct (Run_listed _ _ _ _ _ Hnow Hlist)
    as (w2 & calls & entries & snaps & w3 & finish & Hr & Hrun & _).
  cbn zeta in Hr. exists (after rc w3
            (entries ++ [summaryEntry (final (freshMetadata start) snaps)
                           (Time_Sub finish (StartTime (final (freshMetadata start) snaps)))])
            (NowCall start :: NamespacesListCall (Ok items) :: calls ++ [NowCall finish])
            (freshMetadata start :: snaps)), calls, finish.
  split; [exact Hr|]. split; [reflexivity|].
  intros k namespace obj r Hin.
  exact (namespaces_run_fromListing _ _ _ _ _ _ _ _ _ _ Hrun Hin).
Qed.

(** *** Counting one pass *)

Lemma loop_run_accounting k namespace filter items calls entries n :
  loop_run k namespace filter items calls entries n ->
  (n + failures calls = length (submitted calls))%nat
  /\ length (atLevel InfoLevel entries) = length (submitted calls)
  /\ length (atLevel ErrorLevel entries) = failures calls.
Proof.
  induction 1 as [|obj rest calls entries n Hsel _ IH
                  |obj rest calls entries n t Hsel _ IH
                  |obj rest calls entries n t err Hsel _ IH];
    [repeat split | exact IH | |].
  all: cbn [failures submitted atLevel List.filter length sameLevel EntryLevel
            restartingEntry failedEntry]; fold (atLevel InfoLevel entries);
    fold (atLevel ErrorLevel entries); cbn [length]; lia.
Qed.

(** X8.  One pass of a procedure accounts for every selected workload:
    each gets one update call and one entry at Info level, each failed
    update gets one entry at Error level, and the count returned plus the
    number of failed updates is the number of selected workloads.  The
    listing is a Go slice, so its length fits an [int]. *)
Theorem restart_accounts_for_every_selected k namespace rc w items :
  Workloads_List k namespace (cs rc) = (w, Ok items) ->
  Z.of_nat (length items) <= GoInt.int_max ->
  exists count rc' calls entries,
    restart k namespace rc = Some ((count, None), rc')
    /\ history rc' = history rc ++ ListCall k namespace (Ok items) :: calls
    /\ log rc' = log rc ++ entries
    /\ length (submitted calls) = length (List.filter (selected (podFilter rc)) items)
    /\ count + Z.of_nat (failures calls) = Z.of_nat (length (submitted calls))
    /\ length (atLevel InfoLevel entries) = length (submitted calls)
    /\ length (atLevel ErrorLevel entries) = failures calls.
Proof.
  intros Hlist Hlen.
  destruct (restart_listed _ _ _ _ _ Hlist) as (w' & calls & entries & n & Hr & Hloop).
  pose proof (loop_run_count _ _ _ _ _ _ _ Hloop) as Hn.
  pose proof (loop_run_accounting _ _ _ _ _ _ _ Hloop) as (Hacc & Hinfo & Herr).
  assert (GoInt.wrap (Z.of_nat n) = Z.of_nat n) as Hw.
  { apply GoIntFacts.wrap_id.
    unfold GoInt.in_range, GoInt.int_min, GoInt.int_max in *. lia. }
  do 4 eexists. split; [exact Hr|]. cbn [history log after].
  split; [reflexivity|]. split; [reflexivity|]. split.
  { pose proof (loop_run_submitted _ _ _ _ _ _ _ Hloop) as Hs.
    apply (f_equal (@length string)) in Hs. now rewrite !length_map in Hs. }
  split; [rewrite Hw; lia|]. now split.
Qed.

(** *** The log of a run *)

Lemma withMessage_app msg a b : withMessage msg (a ++ b) = withMessage msg a ++ withMessage msg b.
Proof. apply List.filter_app. Qed.

Lemma listingFailures_app a b :
  listingFailures (a ++ b) = listingFailures a ++ listingFailures b.
Proof. apply List.filter_app. Qed.

Lemma loop_run_messages k namespace filter items calls entries n :
  loop_run k namespace filter items calls entries n ->
  withMessage "Checking namespace" entries = []
  /\ withMessage "Rollout completed" entries = []
  /\ listingFailures entries = [].
Proof.
  induction 1 as [|obj rest calls entries n Hsel _ IH
                  |obj rest calls entries n t Hsel _ IH
                  |obj rest calls entries n t err Hsel _ IH]; auto.
  all: destruct IH as (H1 & H2 & H3).
  all: unfold withMessage, listingFailures in *; cbn [List.filter].
  all: destruct k; cbn; auto.
Qed.

Lemma kind_run_messages k ns filter rm calls entries rm' :
  kind_run k ns filter rm calls entries rm' ->
  withMessage "Checking namespace" entries = []
  /\ withMessage "Rollout completed" entries = []
  /\ listingFailures entries = map loggedFailure (failedListings calls).
Proof.
  intros [err|items calls' entries' n Hloop].
  - destruct k; repeat split.
  - destruct (loop_run_messages _ _ _ _ _ _ _ Hloop) as (H1 & H2 & H3).
    destruct (loop_run_listings _ _ _ _ _ _ _ Hloop) as [_ Hf].
    cbn [failedListings]. rewrite Hf. auto.
Qed.

Lemma namespaces_run_messages filter items rm calls entries snaps :
  namespaces_run filter items rm calls entries snaps ->
  withMessage "Checking namespace" entries = map checkingEntry items
  /\ withMessage "Rollout completed" entries = []
  /\ listingFailures entries = map loggedFailure (failedListings calls).
Proof.
  induction 1 as [|ns rest rm c1 e1 rm1 c2 e2 rm2 c3 e3 rm3 calls entries snaps
                   K1 K2 K3 _ IH]; [auto|].
  destruct IH as (I1 & I2 & I3).
  destruct (kind_run_messages _ _ _ _ _ _ _ K1) as (A1 & A2 & A3).
  destruct (kind_run_messages _ _ _ _ _ _ _ K2) as (B1 & B2 & B3).
  destruct (kind_run_messages _ _ _ _ _ _ _ K3) as (C1 & C2 & C3).
  change (checkingEntry ns :: e1 ++ e2 ++ e3 ++ entries)
    with ([checkingEntry ns] ++ e1 ++ e2 ++ e3 ++ entries).
  rewrite !withMessage_app, !listingFailures_app, !failedListings_app, !map_app.
  rewrite A1, A2, A3, B1, B2, B3, C1, C2, C3, I1, I2, I3.
  repeat split.
Qed.

(** X9.  The log of a completed run: one "Checking namespace" entry per
    namespace of the listing, in its order; one "Failed to restart <kind>s"
    entry per failed workload listing, in the order of the calls, with the
    namespace and the error, as many as the error list has entries; and
    the summary, once, as the last entry. *)
Theorem Run_log_shape rc w0 start w1 items :
  time_Now (cs rc) = (w0, start) ->
  Namespaces_List w0 = (w1, Ok items) ->
  exists rc' rm calls finish entries summary,
    Run rc = Some (None, rc')
    /\ metadata rc' = Some rm
    /\ history rc'
       = history rc ++ NowCall start :: NamespacesListCall (Ok items)
                       :: calls ++ [NowCall finish]
    /\ log rc' = log rc ++ entries
    /\ withMessage "Checking namespace" entries = map checkingEntry items
    /\ listingFailures entries = map loggedFailure (failedListings calls)
    /\ length (listingFailures entries) = length (Errors rm)
    /\ withMessage "Rollout completed" entries = [summary]
    /\ last entries = Some summary.
Proof.
  intros Hnow Hlist.
  destruct (Run_listed _ _ _ _ _ Hnow Hlist)
    as (w2 & calls & entries & snaps & w3 & finish & Hr & Hrun & _).
  cbn zeta in Hr. fold (final (freshMetadata start) snaps) in Hr.
  destruct (namespaces_run_messages _ _ _ _ _ _ Hrun) as (M1 & M2 & M3).
  eexists. exists (final (freshMetadata start) snaps), calls, finish.
  do 2 eexists. split; [exact Hr|]. cbn [metadata history log after].
  split; [rewrite last_cons; unfold final; now destruct (last snaps)|].
  split; [reflexivity|]. split; [reflexivity|].
  rewrite !withMessage_app, !listingFailures_app, M1, M2, M3, last_snoc.
  split; [now rewrite app_nil_r|]. split; [now rewrite app_nil_r|].
  split; [|split; reflexivity].
  rewrite (namespaces_run_errors _ _ _ _ _ _ Hrun). cbn [Errors freshMetadata app].
  now rewrite app_nil_r, !length_map.
Qed.

(** *** The metadata only grows *)

Lemma Chain_lookup {A} (R : A -> A -> Prop) x l :
  Chain R x l ->
  forall i a b, (x :: l) !! i = Some a -> (x :: l) !! S i = Some b -> R a b.
Proof.
  induction 1 as [x|x y l Hxy _ IH]; intros i a b Ha Hb.
  - destruct i; discriminate.
  - destruct i as [|i].
    + cbn in Ha, Hb. congruence.
    + exact (IH i a b Ha Hb).
Qed.

Lemma length_listings calls : (length (listings calls) <= length calls)%nat.
Proof. induction calls as [|[| | |] calls IH]; cbn [listings length]; lia. Qed.

Lemma length_schedule items : length (flat_map schedule items) = (3 * length items)%nat.
Proof. induction items as [|ns rest IH]; cbn [flat_map schedule app length]; lia. Qed.

Lemma Counted_le pre rm pre' rm' k :
  Counted pre rm -> Counted pre' rm' ->
  (successes k pre <= successes k pre')%nat ->
  Z.of_nat (length pre') <= GoInt.int_max ->
  restarted k rm <= restarted k rm'.
Proof.
  intros Hc Hc' Hle Hlen. rewrite (Hc k), (Hc' k).
  pose proof (successes_total pre') as Htot.
  assert (successes k pre' <= length pre')%nat as Hk by (destruct k; lia).
  rewrite !GoIntFacts.wrap_id
    by (unfold GoInt.in_range, GoInt.int_min, GoInt.int_max in *; lia).
  lia.
Qed.

Lemma grows_kind_run k ns filter rm calls entries rm' pre :
  kind_run k ns filter rm calls entries rm' ->
  Counted pre rm ->
  Z.of_nat (length (pre ++ calls)) <= GoInt.int_max ->
  grows rm rm'.
Proof.
  intros Hk Hc Hlen.
  pose proof (kind_run_counted _ _ _ _ _ _ _ _ Hk Hc) as Hc'.
  split; [exact (kind_run_StartTime _ _ _ _ _ _ _ Hk)|]. split.
  { rewrite (kind_run_errors _ _ _ _ _ _ _ Hk). now apply prefix_app_r. }
  split; [rewrite (kind_run_namespaces _ _ _ _ _ _ _ Hk); lia|].
  intros k'. apply (Counted_le pre rm (pre ++ calls) rm' k' Hc Hc'); [|exact Hlen].
  rewrite successes_app. lia.
Qed.

Lemma grows_incr_namespaces rm (v : nat) :
  NamespacesProcessed rm = Z.of_nat v ->
  Z.of_nat (v + 1) <= GoInt.int_max ->
  grows rm (incr_namespaces rm)
  /\ NamespacesProcessed (incr_namespaces rm) = Z.of_nat (v + 1).
Proof.
  intros Hv Hlen.
  assert (NamespacesProcessed (incr_namespaces rm) = Z.of_nat (v + 1)) as Hn.
  { cbn [incr_namespaces NamespacesProcessed]. rewrite Hv. unfold GoInt.add.
    rewrite GoIntFacts.wrap_id
      by (unfold GoInt.in_range, GoInt.int_min, GoInt.int_max in *; lia). lia. }
  split; [|exact Hn]. split; [reflexivity|]. split; [reflexivity|].
  split; [rewrite Hn, Hv; lia|]. intros k. rewrite restarted_incr_namespaces. lia.
Qed.

Lemma namespaces_run_grows filter items rm calls entries snaps :
  namespaces_run filter items rm calls entries snaps ->
  forall pre (v : nat),
    Counted pre rm ->
    NamespacesProcessed rm = Z.of_nat v ->
    Z.of_nat (length (pre ++ calls)) <= GoInt.int_max ->
    Z.of_nat (v + length items) <= GoInt.int_max ->
    Chain grows rm snaps.
Proof.
  induction 1 as [|ns rest rm c1 e1 rm1 c2 e2 rm2 c3 e3 rm3 calls entries snaps
                   K1 K2 K3 _ IH]; intros pre v Hc Hv Hlen Hns; [constructor|].
  cbn [length] in Hns. rewrite !length_app in Hlen.
  destruct (grows_incr_namespaces rm v Hv) as [G0 Hv0]; [lia|].
  assert (Counted pre (incr_namespaces rm)) as C0
      by (intros k; now rewrite restarted_incr_namespaces).
  pose proof (kind_run_counted _ _ _ _ _ _ _ _ K1 C0) as C1.
  pose proof (kind_run_counted _ _ _ _ _ _ _ _ K2 C1) as C2.
  pose proof (kind_run_counted _ _ _ _ _ _ _ _ K3 C2) as C3.
  constructor; [exact G0|].
  constructor; [apply (grows_kind_run _ _ _ _ _ _ _ pre K1 C0); rewrite length_app; lia|].
  constructor; [apply (grows_kind_run _ _ _ _ _ _ _ _ K2 C1); rewrite !length_app; lia|].
  constructor; [apply (grows_kind_run _ _ _ _ _ _ _ _ K3 C2); rewrite !length_app; lia|].
  apply (IH (((pre ++ c1) ++ c2) ++ c3) (v + 1)%nat C3).
  - now rewrite (kind_run_namespaces _ _ _ _ _ _ _ K3), (kind_run_namespaces _ _ _ _ _ _ _ K2),
      (kind_run_namespaces _ _ _ _ _ _ _ K1).
  - rewrite !length_app. lia.
  - lia.
Qed.

(** X10.  Within a run the metadata only grows.  From each value the
    metadata takes to the next one, the start time is kept, the error list
    is extended at its end (no entry is removed or rewritten), and neither
    the namespace counter nor any of the three restart counters gets
    smaller; the number of collaborator calls of the run fitting an [int],
    so that no counter can wrap. *)
Theorem Run_metadata_only_grows rc :
  exists res rc' calls snaps,
    Run rc = Some (res, rc')
    /\ history rc' = history rc ++ calls
    /\ snapshots rc' = snapshots rc ++ snaps
    /\ (Z.of_nat (length calls) <= GoInt.int_max ->
        forall i rm rm',
          snaps !! i = Some rm -> snaps !! S i = Some rm' -> grows rm rm').
Proof.
  destruct (time_Now (cs rc)) as [w0 start] eqn:Hnow.
  destruct (Namespaces_List w0) as [w1 [items|err]] eqn:Hlist.
  - destruct (Run_listed _ _ _ _ _ Hnow Hlist)
      as (w2 & calls & entries & snaps & w3 & finish & Hr & Hrun & _).
    cbn zeta in Hr. do 4 eexists. split; [exact Hr|].
    cbn [history snapshots after]. split; [reflexivity|]. split; [reflexivity|].
    intros Hlen. cbn [length] in Hlen. rewrite length_app in Hlen.
    apply Chain_lookup.
    assert (Counted [] (freshMetadata start)) as H0 by (intros k; now destruct k).
    apply (namespaces_run_grows _ _ _ _ _ _ Hrun [] 0%nat H0 eq_refl).
    + cbn [app]. lia.
    + pose proof (length_listings calls) as Hl.
      rewrite (namespaces_run_listings _ _ _ _ _ _ Hrun), length_schedule in Hl. lia.
  - do 4 eexists. split; [exact (Run_listing_failed _ _ _ _ _ Hnow Hlist)|].
    cbn [history snapshots after]. split; [reflexivity|]. split; [reflexivity|].
    intros _ i rm rm' _ Hi. destruct i; discriminate.
Qed.

End CallerFacts.

(** ** The command: properties *)

Section CommandFacts.

Context {T : Types} {api : Collaborators} {host : Host}.

Local Open Scope string_scope.
Local Open Scope list_scope.

Lemma BuildConfigFromFlags_passed path :
  match clientcmd_BuildConfigFromFlags "" path with
  | Err err => Err err
  | Ok config => Ok config
  end = clientcmd_BuildConfigFromFlags "" path.
Proof. now destruct (clientcmd_BuildConfigFromFlags "" path). Qed.

(** X11.  [buildConfig] chooses the kubeconfig path in this order: the
    value of the environment variable KUBECONFIG when it is not empty,
    else [.kube/config] under the home directory when that is known, else
    the empty path; the master URL is always empty.  What
    [clientcmd.BuildConfigFromFlags] gives for that path, a configuration
    or an error, is returned unchanged. *)
Theorem buildConfig_kubeconfig_precedence :
  (os_Getenv "KUBECONFIG" <> "" ->
   buildConfig = clientcmd_BuildConfigFromFlags "" (os_Getenv "KUBECONFIG"))
  /\ (os_Getenv "KUBECONFIG" = "" -> homedir_HomeDir <> "" ->
      buildConfig
      = clientcmd_BuildConfigFromFlags "" (filepath_Join [homedir_HomeDir; ".kube"; "config"]))
  /\ (os_Getenv "KUBECONFIG" = "" -> homedir_HomeDir = "" ->
      buildConfig = clientcmd_BuildConfigFromFlags "" "").
Proof.
  unfold buildConfig. cbn zeta. rewrite BuildConfigFromFlags_passed.
  repeat split.
  - intros Henv. apply String.eqb_neq in Henv. now rewrite Henv.
  - intros Henv Hhome. apply String.eqb_neq in Hhome. rewrite Henv, Hhome. reflexivity.
  - intros Henv Hhome. rewrite Henv, Hhome. reflexivity.
Qed.

(** X12.  The command never panics, and it exits with status 0 exactly
    when the configuration is built, the clientset is created and the
    namespaces are listed: no failure of a workload listing or of an update
    makes it fail.  When it fails before [Run] nothing was asked of the
    cluster; when [Run] fails, the error is the wrapped failure of the
    namespace listing.  The client runs with the filter "database". *)
Theorem main_exit_status :
  exists o,
    main = Some o
    /\ (exitStatus o = 0 <->
        exists config clientset w0 start w1 items,
          buildConfig = Ok config
          /\ kubernetes_NewForConfig config = Ok clientset
          /\ time_Now clientset = (w0, start)
          /\ Namespaces_List w0 = (w1, Ok items))
    /\ match o with
       | Returned rc' =>
           podFilter rc' = "database"
           /\ exists rm d, metadata rc' = Some rm
                           /\ last (log rc') = Some (summaryEntry rm d)
       | Fatal msg err None =>
           (msg = "Failed to build kubernetes config" /\ buildConfig = Err err)
           \/ (msg = "failed to create clientset"
               /\ exists config, buildConfig = Ok config
                                 /\ kubernetes_NewForConfig config = Err err)
       | Fatal msg err (Some rc') =>
           msg = "Rollout failed"
           /\ podFilter rc' = "database"
           /\ log rc' = []
           /\ exists start cause,
                history rc' = [NowCall start; NamespacesListCall (Err cause)]
                /\ err = Errorf "failed to list namespaces: " cause
       end.
Proof.
  unfold main.
  destruct buildConfig as [config|err] eqn:Hcfg.
  2: { eexists. split; [reflexivity|]. split; [|now left].
       split; [discriminate|]. intros (c & ? & ? & ? & ? & ? & H & _). discriminate. }
  destruct (kubernetes_NewForConfig config) as [clientset|err] eqn:Hcs.
  2: { eexists. split; [reflexivity|]. split; [|right; split; [reflexivity | now exists config]].
       split; [discriminate|].
       intros (c & ? & ? & ? & ? & ? & H & H' & _). congruence. }
  cbn zeta. set (rc := NewRolloutClient clientset main_podFilter []).
  destruct (time_Now (cs rc)) as [w0 start] eqn:Hnow.
  destruct (Namespaces_List w0) as [w1 [items|cause]] eqn:Hlist.
  - destruct (Run_listed _ _ _ _ _ Hnow Hlist)
      as (w2 & calls & entries & snaps & w3 & finish & Hr & _).
    cbn zeta in Hr. rewrite Hr. eexists. split; [reflexivity|]. split.
    + split; [intros _|reflexivity]. now exists config, clientset, w0, start, w1, items.
    + split; [reflexivity|].
      exists (default (freshMetadata start) (last snaps)). eexists.
      cbn [metadata log after rc NewRolloutClient].
      split; [rewrite last_cons; now destruct (last snaps)|].
      cbn [app]. now rewrite last_snoc.
  - rewrite (Run_listing_failed _ _ _ _ _ Hnow Hlist).
    eexists. split; [reflexivity|]. split.
    + split; [discriminate|].
      intros (c & cl & w0' & s' & w1' & it & H1 & H2 & H3 & H4).
      assert (c = config) as -> by congruence.
      assert (cl = clientset) as -> by congruence.
      cbn [cs rc NewRolloutClient] in Hnow. rewrite Hnow in H3.
      inversion H3; subst. rewrite Hlist in H4. discriminate.
    + split; [reflexivity|]. split; [reflexivity|]. split; [reflexivity|].
      now exists start, cause.
Qed.

End CommandFacts.

(** ** On the scripted cluster, continued *)

Module ScenarioFacts.

Import Demo Scenario.

Local Open Scope string_scope.
Local Open Scope list_scope.

(** X4 on the cluster with the filter "DB". *)
Lemma upper_case_filter_updates_nothing_demo :
  exists res rc' calls rm,
    Run (client "DB") = Some (res, rc')
    /\ history rc' = history (client "DB") ++ calls
    /\ submitted calls = []
    /\ metadata rc' = Some rm
    /\ forall k, restarted k rm = 0.
Proof.
  apply (upper_case_filter_updates_nothing (client "DB")). reflexivity.
Defined.

(** X5 on the cluster without namespaces. *)
Lemma Run_no_namespaces_demo :
  Run visitor
  = Some (None,
          after visitor (tick (tick deserted))
            [summaryEntry (freshMetadata (T := types) 0%N) (Time_Sub 1%N 0%N)]
            [NowCall 0%N; NamespacesListCall (Ok []); NowCall 1%N]
            [freshMetadata (T := types) 0%N]).
Proof.
  apply (Run_no_namespaces visitor (tick deserted) 0%N (tick deserted)
           (tick (tick deserted)) 1%N); reflexivity.
Defined.

(** X6 on the cluster, filter "db". *)
Lemma Run_reports_elapsed_time_demo :
  exists rc' snaps calls finish summary,
    Run (client "db") = Some (None, rc')
    /\ snapshots rc' = snapshots (client "db") ++ snaps
    /\ Forall (fun rm => StartTime rm = 0%N) snaps
    /\ history rc' = history (client "db") ++ NowCall 0%N :: calls ++ [NowCall finish]
    /\ last (log rc') = Some summary
    /\ Message summary = "Rollout completed"
    /\ Data summary !! "duration"
       = Some (StringField (Duration_String (Time_Sub finish 0%N))).
Proof.
  apply (Run_reports_elapsed_time (client "db") (tick world) 0%N (tick world)
           (map namespace ["default"; "db"])); reflexivity.
Defined.

(** X7 on the cluster, filter "db". *)
Lemma Run_updates_only_what_it_listed_demo :
  exists rc' calls finish,
    Run (client "db") = Some (None, rc')
    /\ history rc'
       = history (client "db")
         ++ NowCall 0%N :: NamespacesListCall (Ok (map namespace ["default"; "db"]))
            :: calls ++ [NowCall finish]
    /\ forall k namespace' obj r,
         In (UpdateCall k namespace' obj r) calls ->
         fromListing "db" (map namespace ["default"; "db"]) calls k namespace' obj r.
Proof.
  apply (Run_updates_only_what_it_listed (client "db") (tick world) 0%N (tick world)
           (map namespace ["default"; "db"])); reflexivity.
Defined.

(** X8 on the statefulsets of [db]: two selected, one refused. *)
Lemma restart_accounts_for_every_selected_demo :
  exists count rc' calls entries,
    restart StatefulSets "db" (client "db") = Some ((count, None), rc')
    /\ history rc' = history (client "db") ++ ListCall StatefulSets "db" (Ok dbStatefulSets) :: calls
    /\ log rc' = log (client "db") ++ entries
    /\ length (submitted calls) = length (List.filter (selected "db") dbStatefulSets)
    /\ count + Z.of_nat (failures calls) = Z.of_nat (length (submitted calls))
    /\ length (atLevel InfoLevel entries) = length (submitted calls)
    /\ length (atLevel ErrorLevel entries) = failures calls.
Proof.
  apply (restart_accounts_for_every_selected StatefulSets "db" (client "db") world
           dbStatefulSets).
  - reflexivity.
  - vm_compute. discriminate.
Defined.

(** X9 on the cluster, filter "db". *)
Lemma Run_log_shape_demo :
  exists rc' rm calls finish entries summary,
    Run (client "db") = Some (None, rc')
    /\ metadata rc' = Some rm
    /\ history rc'
       = history (client "db")
         ++ NowCall 0%N :: NamespacesListCall (Ok (map namespace ["default"; "db"]))
            :: calls ++ [NowCall finish]
    /\ log rc' = log (client "db") ++ entries
    /\ withMessage "Checking namespace" entries
       = map checkingEntry (map namespace ["default"; "db"])
    /\ listingFailures entries = map loggedFailure (failedListings calls)
    /\ length (listingFailures entries) = length (Errors rm)
    /\ withMessage "Rollout completed" entries = [summary]
    /\ last entries = Some summary.
Proof.
  apply (Run_log_shape (client "db") (tick world) 0%N (tick world)
           (map namespace ["default"; "db"])); reflexivity.
Defined.

(** X10 on the cluster: the run makes 17 calls, and each of the values of
    the metadata grows into the next. *)
Lemma Run_metadata_only_grows_demo :
  exists snaps,
    snapshots (finished (client "db")) = snaps
    /\ length snaps = 9%nat
    /\ forall i rm rm',
         snaps !! i = Some rm -> snaps !! S i = Some rm' -> grows rm rm'.
Proof.
  destruct (Run_metadata_only_grows (client "db"))
    as (res & rc' & calls & snaps & Hrun & Hhist & Hsnaps & Hgrows).
  exists snaps.
  assert (snapshots (finished (client "db")) = snaps) as Heq.
  { unfold finished. rewrite Hrun, Hsnaps. reflexivity. }
  split; [exact Heq|]. split; [now rewrite <- Heq|].
  apply Hgrows.
  assert (length calls = length (history (finished (client "db")))) as ->.
  { unfold finished. rewrite Hrun, Hhist. reflexivity. }
  vm_compute. discriminate.
Defined.

(** X11 on the host with both a home directory and KUBECONFIG: the
    variable wins. *)
Lemma buildConfig_kubeconfig_precedence_demo :
  buildConfig (host := laptop)
  = clientcmd_BuildConfigFromFlags (Host := laptop) "" "/etc/kube/admin.conf".
Proof.
  apply (proj1 (buildConfig_kubeconfig_precedence (host := laptop))). discriminate.
Defined.

(** X12 on the host: the configuration is built, the clientset reaches the
    cluster, the namespaces are listed; one update is refused and one
    listing fails, and the command exits with status 0. *)
Lemma main_exit_status_demo :
  exists o, main (host := laptop) = Some o /\ exitStatus o = 0.
Proof.
  destruct (main_exit_status (host := laptop)) as (o & Hmain & Hstatus & _).
  exists o. split; [exact Hmain|]. apply Hstatus.
  exists "/etc/kube/admin.conf", world, (tick world), 0%N, (tick world),
    (map namespace ["default"; "db"]).
  repeat split.
Defined.

End ScenarioFacts.
